(** * todo-mcp-server: a shallow embedding of the To-Do service

    The service keeps one in-memory list of tasks and serves it through two
    front ends: the REST router of [routes/todo.py] and the tool dispatcher
    ([MCPServer]) of [main.py].  The Python modules become Rocq modules of
    the same name, their functions become state-passing functions over the
    interpreter's global variables, and a raised exception becomes the
    [Raise] outcome. *)

From Stdlib Require Import ZArith String Ascii List Lia Sorted.
From Stdlib Require Import PrimFloat.
From stdpp Require Import base list gmap strings pretty sorting.

Local Open Scope Z_scope.
Local Open Scope string_scope.

(** ** Python values

    The objects that reach the handlers from a JSON request body.  The model
    keeps the scalars ([null], booleans, integers, strings); arrays, objects
    and numbers with a fraction are left out of the argument universe. *)

Inductive value : Type :=
| VNone
| VBool (b : bool)
| VInt (z : Z)
| VStr (s : string).

#[global] Instance value_eq_dec : EqDecision value.
Proof. solve_decision. Defined.

(** [str(v)], as an f-string renders a value. *)
Definition py_str (v : value) : string :=
  match v with
  | VNone => "None"
  | VBool true => "True"
  | VBool false => "False"
  | VInt z => pretty z
  | VStr s => s
  end.

(** [bool(v)], the truth value an [if] tests. *)
Definition truthy (v : value) : bool :=
  match v with
  | VNone => false
  | VBool b => b
  | VInt z => negb (z =? 0)%Z
  | VStr s => negb (String.eqb s "")
  end.

(** [n == v] for an [int] [n]: [bool] is a subclass of [int], so [True]
    equals [1] and [False] equals [0]; [None] and strings equal no integer. *)
Definition int_eq (n : Z) (v : value) : bool :=
  match v with
  | VInt z => (n =? z)%Z
  | VBool b => (n =? (if b then 1 else 0))%Z
  | VNone | VStr _ => false
  end.

(** [v is not None]. *)
Definition is_not_None (v : value) : bool :=
  match v with VNone => false | _ => true end.

Definition of_option_str (o : option string) : value :=
  match o with Some s => VStr s | None => VNone end.

Definition of_option_bool (o : option bool) : value :=
  match o with Some b => VBool b | None => VNone end.

(** ** [datetime]

    A naive [datetime] as [datetime.now()] returns it, and its [isoformat()]
    with the default separator and [timespec='auto']. *)

Module datetime.
Record t : Type := mk
  { year : nat; month : nat; day : nat;
    hour : nat; minute : nat; second : nat; microsecond : nat }.

Definition zfill (width : nat) (s : string) : string :=
  string_of_list_ascii (replicate (width - String.length s) "0"%char) +:+ s.

Definition isoformat (d : t) : string :=
  zfill 4 (pretty (year d)) +:+ "-" +:+ zfill 2 (pretty (month d)) +:+ "-"
    +:+ zfill 2 (pretty (day d)) +:+ "T"
    +:+ zfill 2 (pretty (hour d)) +:+ ":" +:+ zfill 2 (pretty (minute d))
    +:+ ":" +:+ zfill 2 (pretty (second d))
    +:+ (if Nat.eqb (microsecond d) 0 then ""
         else "." +:+ zfill 6 (pretty (microsecond d))).
End datetime.

(** ** Outcomes and exceptions *)

Inductive outcome (E A : Type) : Type :=
| Return (a : A)
| Raise (e : E).
Arguments Return {E A} a.
Arguments Raise {E A} e.

(** [fastapi.HTTPException(status_code, detail)]. *)
Record HTTPException : Type :=
  { status_code : Z; detail : string }.

(** The exceptions a tool can raise: the [ValueError] of the tool bodies,
    the [TypeError] of a call whose keywords do not fit the signature, and
    pydantic's [ValidationError].  Each carries the text [str(e)] gives. *)
Inductive exn : Type :=
| ValueError (msg : string)
| TypeError (msg : string)
| ValidationError (msg : string).

Definition exn_str (e : exn) : string :=
  match e with
  | ValueError msg | TypeError msg | ValidationError msg => msg
  end.

(** ** models.py *)

Module models.

(** [TodoCreate]: a request body FastAPI has validated. *)
Module TodoCreate.
Record t : Type := mk
  { title : string; description : option string }.
End TodoCreate.

(** [TodoUpdate]: every field optional, default [None].  [fields_set] is
    pydantic's record of the fields the request body named, which
    [dict(exclude_unset=True)] consults. *)
Module TodoUpdate.
Record t : Type := mk
  { title : option string;
    description : option string;
    completed : option bool;
    fields_set : gset string }.

Definition dict_exclude_unset (u : t) : gmap string value :=
  (if decide ("title" ∈ fields_set u)
   then {[ "title" := of_option_str (title u) ]} else ∅)
  ∪ (if decide ("description" ∈ fields_set u)
     then {[ "description" := of_option_str (description u) ]} else ∅)
  ∪ (if decide ("completed" ∈ fields_set u)
     then {[ "completed" := of_option_bool (completed u) ]} else ∅).
End TodoUpdate.

(** [Todo].  The constructor validates, [copy(update=...)] does not, so a
    stored record's [title], [description] and [completed] can hold any
    value an update carried; [id] and [created_at] are only ever written by
    the constructor. *)
Module Todo.
Record t : Type := mk
  { id : Z;
    title : value;
    description : value;
    completed : value;
    created_at : datetime.t }.

(** What the constructor rejects among the fields a caller chooses: [title]
    is declared [str] and [description] is declared [Optional[str]], and
    pydantic 2 (whose [from_attributes] setting the model carries) takes
    only a string for a [str] field.  The result lists each rejected field
    with its input. *)
Definition validation_errors (title description : value)
  : list (string * value) :=
  match title with VStr _ => [] | _ => [("title", title)] end
  ++ match description with
     | VStr _ | VNone => []
     | _ => [("description", description)]
     end.

(** [todo.copy(update=update_data)] for the dicts the two [update_todo]
    build: their keys are among [title], [description] and [completed].
    (A dict naming [id] or [created_at] would replace those too; no caller
    builds one.) *)
Definition copy (update : gmap string value) (todo : t) : t :=
  {| id := id todo;
     title := default (title todo) (update !! "title");
     description := default (description todo) (update !! "description");
     completed := default (completed todo) (update !! "completed");
     created_at := created_at todo |}.
End Todo.

End models.
Import models.

(** ** The interpreter's global variables

    [routes/todo.py] binds [todos_db] to a list and [next_id] to [1].
    [main.py] runs [from routes.todo import todos_db, next_id]: this binds
    [main.todos_db] to the same list object, which both modules mutate in
    place, and binds a second global [main.next_id] to the integer [1].
    A [global next_id] statement rebinds the global of the module the
    function is defined in, so each module increments its own counter. *)

Record globals : Type :=
  { todos_db : list Todo.t;
    routes_todo_next_id : Z;
    main_next_id : Z }.

Definition initial : globals :=
  {| todos_db := []; routes_todo_next_id := 1; main_next_id := 1 |}.

(** ** routes/todo.py *)

Module routes.
Module todo.

Definition not_found : HTTPException :=
  {| status_code := 404; detail := "Todo not found" |}.

Definition create_todo (todo : TodoCreate.t) (now : datetime.t) (g : globals)
  : Todo.t * globals :=
  let new_todo :=
    {| Todo.id := routes_todo_next_id g;
       Todo.title := VStr (TodoCreate.title todo);
       Todo.description := of_option_str (TodoCreate.description todo);
       Todo.completed := VBool false;
       Todo.created_at := now |} in
  (new_todo,
   {| todos_db := todos_db g ++ [new_todo];
      routes_todo_next_id := routes_todo_next_id g + 1;
      main_next_id := main_next_id g |}).

Definition get_all_todos (g : globals) : list Todo.t := todos_db g.

Definition get_todo (todo_id : Z) (g : globals)
  : outcome HTTPException Todo.t :=
  match list_find (λ todo, Todo.id todo = todo_id) (todos_db g) with
  | Some (_, todo) => Return todo
  | None => Raise not_found
  end.

Definition update_todo (todo_id : Z) (todo_update : TodoUpdate.t) (g : globals)
  : outcome HTTPException Todo.t * globals :=
  match list_find (λ todo, Todo.id todo = todo_id) (todos_db g) with
  | Some (i, todo) =>
      let update_data := TodoUpdate.dict_exclude_unset todo_update in
      let updated_todo := Todo.copy update_data todo in
      (Return updated_todo,
       {| todos_db := <[i := updated_todo]> (todos_db g);
          routes_todo_next_id := routes_todo_next_id g;
          main_next_id := main_next_id g |})
  | None => (Raise not_found, g)
  end.

Definition delete_todo (todo_id : Z) (g : globals)
  : outcome HTTPException string * globals :=
  match list_find (λ todo, Todo.id todo = todo_id) (todos_db g) with
  | Some (i, todo) =>
      (Return ("Todo '" +:+ py_str (Todo.title todo)
                 +:+ "' deleted successfully"),
       {| todos_db := delete i (todos_db g);
          routes_todo_next_id := routes_todo_next_id g;
          main_next_id := main_next_id g |})
  | None => (Raise not_found, g)
  end.

End todo.
End routes.

(** ** Library renderings

    Two texts are produced by library code outside the repository and are
    taken as given: the [repr] of a float, which [json.dumps] writes, and the
    report pydantic builds for a [ValidationError] from the model's name and
    the rejected fields with their inputs. *)

Class PyLib : Type :=
  { float_repr : float → string;
    validation_error_str : string → list (string * value) → string }.

(** ** Python functions called with keywords *)

Module Param.
(** [inspect.Parameter]: [None] stands for [inspect.Parameter.empty];
    [annotation] holds the annotating class's [__name__]. *)
Record t : Type := mk
  { name : string; annotation : option string; default : option value }.
End Param.

Definition kwargs : Type := list (string * value).

(** [args[k]] for a dict given by its items in insertion order. *)
Fixpoint kw_get (k : string) (args : kwargs) : option value :=
  match args with
  | [] => None
  | (k', v) :: rest => if decide (k' = k) then Some v else kw_get k rest
  end.

Module pyfunction.
(** A function object: its name, docstring and signature, and its body as
    a function of the bound parameters, the clock reading and the globals. *)
Record t (R : Type) : Type := mk
  { __name__ : string;
    __doc__ : option string;
    signature : list Param.t;
    body : (string → value) → datetime.t → globals
           → outcome exn R * globals }.
Arguments mk {R}.
Arguments __name__ {R}.
Arguments __doc__ {R}.
Arguments signature {R}.
Arguments body {R}.

Definition param_names {R} (f : t R) : list string :=
  Param.name <$> signature f.

(** The first keyword, in the dict's order, that names no parameter. *)
Definition unexpected {R} (f : t R) (args : kwargs) : option string :=
  (λ r, fst (snd r)) <$> list_find (λ kv, fst kv ∉ param_names f) args.

(** The parameters without a default that [args] leaves unbound. *)
Definition missing {R} (f : t R) (args : kwargs) : list string :=
  Param.name <$>
    filter (λ p, Param.default p = None ∧ kw_get (Param.name p) args = None)
           (signature f).

Definition quote (s : string) : string := "'" +:+ s +:+ "'".

Fixpoint join_comma (names : list string) : string :=
  match names with
  | [] => ""
  | [a] => a
  | a :: rest => a +:+ ", " +:+ join_comma rest
  end.

(** How the interpreter lists the missing names. *)
Definition format_missing (names : list string) : string :=
  match reverse names with
  | [] => ""
  | [a] => quote a
  | [b; a] => quote a +:+ " and " +:+ quote b
  | b :: a :: front =>
      join_comma (quote <$> reverse front)
        +:+ ", " +:+ quote a +:+ ", and " +:+ quote b
  end.

(** The value a parameter is bound to once the keywords fit. *)
Definition bound {R} (f : t R) (args : kwargs) (k : string) : value :=
  match kw_get k args with
  | Some v => v
  | None =>
      match list_find (λ p, Param.name p = k) (signature f) with
      | Some (_, p) => default VNone (Param.default p)
      | None => VNone
      end
  end.

(** [f] called with [args] spread as keywords: an unknown keyword is
    rejected first, then unbound required parameters; both raise
    [TypeError] before the body runs. *)
Definition call {R} (f : t R) (args : kwargs) (now : datetime.t) (g : globals)
  : outcome exn R * globals :=
  match unexpected f args with
  | Some k =>
      (Raise (TypeError (__name__ f
                +:+ "() got an unexpected keyword argument " +:+ quote k)), g)
  | None =>
      match missing f args with
      | [] => body f (bound f args) now g
      | names =>
          (Raise (TypeError (__name__ f +:+ "() missing "
                    +:+ pretty (length names) +:+ " required positional argument"
                    +:+ (if decide (length names = 1%nat) then "" else "s")
                    +:+ ": " +:+ format_missing names)), g)
      end
  end.
End pyfunction.

(** A JSON-ready result of a tool: a dict of scalars, or a list of them. *)
Inductive pyobj : Type :=
| Dict (items : list (string * value))
| List (elems : list (list (string * value))).

(** The single-field envelope [{"result": result}]. *)
Record envelope (A : Type) : Type := { result : A }.
Arguments result {A}.

(** ** main.py *)

Module main.

Module ParamInfo.
(** One entry of a tool's parameter schema; [default = None] means the
    ["default"] key is absent. *)
Record t : Type := mk
  { type : string; required : bool; default : option value }.
End ParamInfo.

Module Tool.
Record t : Type := mk
  { function : pyfunction.t pyobj;
    description : string;
    parameters : gmap string ParamInfo.t }.
End Tool.

Module Resource.
Record t : Type := mk
  { function : pyfunction.t string;
    description : string }.
End Resource.

Module MCPServer.

Record t : Type := mk
  { name : string;
    description : string;
    tools : gmap string Tool.t;
    resources : gmap string Resource.t }.

Definition __init__ (name description : string) : t :=
  {| name := name; description := description; tools := ∅; resources := ∅ |}.

(** The [param_info] dict built for one parameter. *)
Definition param_info (param : Param.t) : ParamInfo.t :=
  {| ParamInfo.type :=
       match Param.annotation param with
       | Some cls => cls
       | None => "str"
       end;
     ParamInfo.required := bool_decide (Param.default param = None);
     ParamInfo.default := Param.default param |}.

(** One turn of the loop of [_get_function_params]. *)
Definition schema_step (params : gmap string ParamInfo.t) (param : Param.t)
  : gmap string ParamInfo.t :=
  if decide (Param.name param = "self") then params
  else <[ Param.name param := param_info param ]> params.

(** The loop over [sig.parameters.items()], from the empty dict. *)
Definition _get_function_params {R} (func : pyfunction.t R)
  : gmap string ParamInfo.t :=
  foldl schema_step ∅ (pyfunction.signature func).

(** [@mcp.tool()] applied to [f]. *)
Definition tool (f : pyfunction.t pyobj) (self : t) : t :=
  {| name := name self;
     description := description self;
     tools :=
       <[ pyfunction.__name__ f :=
            {| Tool.function := f;
               Tool.description := default "" (pyfunction.__doc__ f);
               Tool.parameters := _get_function_params f |} ]> (tools self);
     resources := resources self |}.

(** [@mcp.resource()] applied to [f]. *)
Definition resource (f : pyfunction.t string) (self : t) : t :=
  {| name := name self;
     description := description self;
     tools := tools self;
     resources :=
       <[ pyfunction.__name__ f :=
            {| Resource.function := f;
               Resource.description := default "" (pyfunction.__doc__ f) |} ]>
         (resources self) |}.

(** [POST /tools/{tool_name}]. *)
Definition call_tool (self : t) (tool_name : string) (args : kwargs)
    (now : datetime.t) (g : globals)
  : outcome HTTPException (envelope pyobj) * globals :=
  match tools self !! tool_name with
  | None =>
      (Raise {| status_code := 404;
                detail := "Tool " +:+ tool_name +:+ " not found" |}, g)
  | Some tool =>
      match pyfunction.call (Tool.function tool) args now g with
      | (Return r, g') => (Return {| result := r |}, g')
      | (Raise e, g') =>
          (Raise {| status_code := 500; detail := exn_str e |}, g')
      end
  end.

(** [GET /tools]. *)
Definition list_tools (self : t) : gmap string (string * gmap string ParamInfo.t) :=
  (λ tool, (Tool.description tool, Tool.parameters tool)) <$> tools self.

(** [GET /resources/{resource_name}]. *)
Definition get_resource (self : t) (resource_name : string)
    (now : datetime.t) (g : globals)
  : outcome HTTPException (envelope string) * globals :=
  match resources self !! resource_name with
  | None =>
      (Raise {| status_code := 404;
                detail := "Resource " +:+ resource_name +:+ " not found" |}, g)
  | Some res =>
      match pyfunction.call (Resource.function res) [] now g with
      | (Return r, g') => (Return {| result := r |}, g')
      | (Raise e, g') =>
          (Raise {| status_code := 500; detail := exn_str e |}, g')
      end
  end.

(** [GET /resources]. *)
Definition list_resources (self : t) : gmap string string :=
  Resource.description <$> resources self.

End MCPServer.

Definition mcp0 : MCPServer.t :=
  MCPServer.__init__ "todo-mcp-server" "MCP server for managing To-Do tasks".

(** The dict literal each tool builds from a record. *)
Definition todo_dict (todo : Todo.t) : list (string * value) :=
  [ ("id", VInt (Todo.id todo));
    ("title", Todo.title todo);
    ("description", Todo.description todo);
    ("completed", Todo.completed todo);
    ("created_at", VStr (datetime.isoformat (Todo.created_at todo))) ].

(** [f"Todo with ID {id} not found"]. *)
Definition not_found (id : value) : exn :=
  ValueError ("Todo with ID " +:+ py_str id +:+ " not found").

(** *** The arithmetic of [todo_summary] *)

(** [float(n)] for an integer; exact below [2^53]. *)
Fixpoint float_of_pos (p : positive) : float :=
  match p with
  | xH => 1
  | xO q => 2 * float_of_pos q
  | xI q => 2 * float_of_pos q + 1
  end%float.

Definition float_of_Z (z : Z) : float :=
  match z with
  | Z0 => 0%float
  | Zpos p => float_of_pos p
  | Zneg p => (- float_of_pos p)%float
  end.

(** A JSON number as Python holds it: an [int] or a [float]. *)
Inductive number : Type :=
| NInt (z : Z)
| NFloat (x : float).

(** [sum(1 for todo in todos_db if todo.completed)]. *)
Definition count_completed (db : list Todo.t) : Z :=
  foldl (λ acc todo, if truthy (Todo.completed todo) then acc + 1 else acc)
        0 db.

(** The [summary] dict of [todo_summary]. *)
Definition summary (db : list Todo.t) : list (string * number) :=
  let total_todos := Z.of_nat (length db) in
  let completed_todos := count_completed db in
  let pending_todos := total_todos - completed_todos in
  [ ("total_todos", NInt total_todos);
    ("completed_todos", NInt completed_todos);
    ("pending_todos", NInt pending_todos);
    ("completion_rate",
     if decide (total_todos > 0)
     then NFloat (float_of_Z completed_todos / float_of_Z total_todos * 100)%float
     else NInt 0) ].

Section with_library.
Context `{PyLib}.

(** *** MCP tools *)

Definition create_todo (title description : value)
    (now : datetime.t) (g : globals) : outcome exn pyobj * globals :=
  match Todo.validation_errors title description with
  | [] =>
      let new_todo :=
        {| Todo.id := main_next_id g;
           Todo.title := title;
           Todo.description := description;
           Todo.completed := VBool false;
           Todo.created_at := now |} in
      (Return (Dict (todo_dict new_todo)),
       {| todos_db := todos_db g ++ [new_todo];
          routes_todo_next_id := routes_todo_next_id g;
          main_next_id := main_next_id g + 1 |})
  | errors => (Raise (ValidationError (validation_error_str "Todo" errors)), g)
  end.

Definition list_todos (g : globals) : outcome exn pyobj * globals :=
  (Return (List (todo_dict <$> todos_db g)), g).

Definition get_todo (id : value) (g : globals) : outcome exn pyobj * globals :=
  match list_find (λ todo, int_eq (Todo.id todo) id = true) (todos_db g) with
  | Some (_, todo) => (Return (Dict (todo_dict todo)), g)
  | None => (Raise (not_found id), g)
  end.

Definition update_todo (id title description completed : value) (g : globals)
  : outcome exn pyobj * globals :=
  match list_find (λ todo, int_eq (Todo.id todo) id = true) (todos_db g) with
  | Some (i, todo) =>
      let update_data : gmap string value := ∅ in
      let update_data :=
        if is_not_None title then <["title" := title]> update_data
        else update_data in
      let update_data :=
        if is_not_None description
        then <["description" := description]> update_data
        else update_data in
      let update_data :=
        if is_not_None completed then <["completed" := completed]> update_data
        else update_data in
      let updated_todo := Todo.copy update_data todo in
      (Return (Dict (todo_dict updated_todo)),
       {| todos_db := <[i := updated_todo]> (todos_db g);
          routes_todo_next_id := routes_todo_next_id g;
          main_next_id := main_next_id g |})
  | None => (Raise (not_found id), g)
  end.

Definition delete_todo (id : value) (g : globals)
  : outcome exn pyobj * globals :=
  match list_find (λ todo, int_eq (Todo.id todo) id = true) (todos_db g) with
  | Some (i, deleted_todo) =>
      (Return (Dict [("message",
                      VStr ("Todo '" +:+ py_str (Todo.title deleted_todo)
                              +:+ "' deleted successfully"))]),
       {| todos_db := delete i (todos_db g);
          routes_todo_next_id := routes_todo_next_id g;
          main_next_id := main_next_id g |})
  | None => (Raise (not_found id), g)
  end.

(** *** MCP resource *)

Definition newline : string := String "010"%char "".
Definition dquote : string := String "034"%char "".

Definition json_number (n : number) : string :=
  match n with
  | NInt z => pretty z
  | NFloat x => float_repr x
  end.

(** [json.dumps(d, indent=2)] for a dict of numbers whose keys need no
    escaping. *)
Definition json_dumps (d : list (string * number)) : string :=
  match d with
  | [] => "{}"
  | _ =>
      "{" +:+ newline
        +:+ String.concat ("," +:+ newline)
              ((λ kv, "  " +:+ dquote +:+ fst kv +:+ dquote +:+ ": "
                        +:+ json_number (snd kv)) <$> d)
        +:+ newline +:+ "}"
  end.

Definition todo_summary (g : globals) : outcome exn string * globals :=
  (Return (json_dumps (summary (todos_db g))), g).

(** *** The function objects and the registry

    Each docstring is the text the source has between the triple quotes,
    line by line, with its indentation. *)

Definition def_create_todo : pyfunction.t pyobj :=
  {| pyfunction.__name__ := "create_todo";
     pyfunction.__doc__ :=
       Some (String.concat newline
         [ "";
           "    Create a new todo item.";
           "    ";
           "    Args:";
           "        title: The title of the todo item";
           "        description: Optional description of the todo item";
           "        ";
           "    Returns:";
           "        Dict containing the created todo item";
           "    " ]);
     pyfunction.signature :=
       [ Param.mk "title" (Some "str") None;
         Param.mk "description" (Some "str") (Some VNone) ];
     pyfunction.body := λ a now g,
       create_todo (a "title") (a "description") now g |}.

Definition def_list_todos : pyfunction.t pyobj :=
  {| pyfunction.__name__ := "list_todos";
     pyfunction.__doc__ :=
       Some (String.concat newline
         [ "";
           "    Get all todo items.";
           "    ";
           "    Returns:";
           "        List of all todo items";
           "    " ]);
     pyfunction.signature := [];
     pyfunction.body := λ _ _ g, list_todos g |}.

Definition def_get_todo : pyfunction.t pyobj :=
  {| pyfunction.__name__ := "get_todo";
     pyfunction.__doc__ :=
       Some (String.concat newline
         [ "";
           "    Get a single todo item by ID.";
           "    ";
           "    Args:";
           "        id: The ID of the todo item to retrieve";
           "        ";
           "    Returns:";
           "        Dict containing the todo item";
           "    " ]);
     pyfunction.signature := [ Param.mk "id" (Some "int") None ];
     pyfunction.body := λ a _ g, get_todo (a "id") g |}.

Definition def_update_todo : pyfunction.t pyobj :=
  {| pyfunction.__name__ := "update_todo";
     pyfunction.__doc__ :=
       Some (String.concat newline
         [ "";
           "    Update a todo item by ID.";
           "    ";
           "    Args:";
           "        id: The ID of the todo item to update";
           "        title: Optional new title";
           "        description: Optional new description";
           "        completed: Optional completion status";
           "        ";
           "    Returns:";
           "        Dict containing the updated todo item";
           "    " ]);
     pyfunction.signature :=
       [ Param.mk "id" (Some "int") None;
         Param.mk "title" (Some "str") (Some VNone);
         Param.mk "description" (Some "str") (Some VNone);
         Param.mk "completed" (Some "bool") (Some VNone) ];
     pyfunction.body := λ a _ g,
       update_todo (a "id") (a "title") (a "description") (a "completed") g |}.

Definition def_delete_todo : pyfunction.t pyobj :=
  {| pyfunction.__name__ := "delete_todo";
     pyfunction.__doc__ :=
       Some (String.concat newline
         [ "";
           "    Delete a todo item by ID.";
           "    ";
           "    Args:";
           "        id: The ID of the todo item to delete";
           "        ";
           "    Returns:";
           "        Dict containing deletion confirmation message";
           "    " ]);
     pyfunction.signature := [ Param.mk "id" (Some "int") None ];
     pyfunction.body := λ a _ g, delete_todo (a "id") g |}.

Definition def_todo_summary : pyfunction.t string :=
  {| pyfunction.__name__ := "todo_summary";
     pyfunction.__doc__ :=
       Some (String.concat newline
         [ "";
           "    Get a summary of all todos including counts.";
           "    ";
           "    Returns:";
           "        JSON string containing todo summary statistics";
           "    " ]);
     pyfunction.signature := [];
     pyfunction.body := λ _ _ g, todo_summary g |}.

(** The registry once the module has been imported: the decorators ran in
    the order of the definitions. *)
Definition mcp : MCPServer.t :=
  MCPServer.resource def_todo_summary
    (MCPServer.tool def_delete_todo
      (MCPServer.tool def_update_todo
        (MCPServer.tool def_get_todo
          (MCPServer.tool def_list_todos
            (MCPServer.tool def_create_todo mcp0))))).

(** *** The application

    [app] routes a request to the REST router included at [/todos] or to the
    dispatcher mounted at [/mcp].  A request is served at one clock reading;
    what FastAPI does around a handler (parsing and validating the request,
    serialising the response) is outside the model. *)

Inductive request : Type :=
| POST_todos (todo : TodoCreate.t)
| GET_todos
| GET_todos_id (todo_id : Z)
| PUT_todos_id (todo_id : Z) (todo_update : TodoUpdate.t)
| DELETE_todos_id (todo_id : Z)
| POST_mcp_tools (tool_name : string) (args : kwargs)
| GET_mcp_resources (resource_name : string).

Inductive response : Type :=
| Created (todo : Todo.t)
| OkTodo (todo : Todo.t)
| OkTodos (todos : list Todo.t)
| OkMessage (message : string)
| OkTool (r : envelope pyobj)
| OkResource (r : envelope string)
| Failed (e : HTTPException).

Definition respond {A} (ok : A → response) (o : outcome HTTPException A)
  : response :=
  match o with Return a => ok a | Raise e => Failed e end.

Definition app (req : request) (now : datetime.t) (g : globals)
  : response * globals :=
  match req with
  | POST_todos todo =>
      let '(t, g') := routes.todo.create_todo todo now g in (Created t, g')
  | GET_todos => (OkTodos (routes.todo.get_all_todos g), g)
  | GET_todos_id todo_id => (respond OkTodo (routes.todo.get_todo todo_id g), g)
  | PUT_todos_id todo_id todo_update =>
      let '(o, g') := routes.todo.update_todo todo_id todo_update g in
      (respond OkTodo o, g')
  | DELETE_todos_id todo_id =>
      let '(o, g') := routes.todo.delete_todo todo_id g in
      (respond OkMessage o, g')
  | POST_mcp_tools tool_name args =>
      let '(o, g') := MCPServer.call_tool mcp tool_name args now g in
      (respond OkTool o, g')
  | GET_mcp_resources resource_name =>
      let '(o, g') := MCPServer.get_resource mcp resource_name now g in
      (respond OkResource o, g')
  end.

(** Serving a sequence of requests, each with its clock reading. *)
Fixpoint run (reqs : list (request * datetime.t)) (g : globals)
  : list response * globals :=
  match reqs with
  | [] => ([], g)
  | (req, now) :: rest =>
      let '(r, g') := app req now g in
      let '(rs, g'') := run rest g' in
      (r :: rs, g'')
  end.

(** The id a response assigns, when its request was a create: through the
    REST router, through the [create_todo] tool, or through either. *)
Definition rest_assigned_id (req : request) (r : response) : option Z :=
  match req, r with
  | POST_todos _, Created t => Some (Todo.id t)
  | _, _ => None
  end.

Definition tool_assigned_id (req : request) (r : response) : option Z :=
  match req, r with
  | POST_mcp_tools tool_name _, OkTool e =>
      if decide (tool_name = "create_todo") then
        match result e with
        | Dict d =>
            match kw_get "id" d with
            | Some (VInt z) => Some z
            | _ => None
            end
        | List _ => None
        end
      else None
  | _, _ => None
  end.

Definition assigned_id (req : request) (r : response) : option Z :=
  match rest_assigned_id req r with
  | Some z => Some z
  | None => tool_assigned_id req r
  end.

(** The ids a selector finds along a run, in the order of the requests. *)
Definition ids_of (sel : request → response → option Z)
    (reqs : list (request * datetime.t)) (g : globals) : list Z :=
  omap (λ x, sel (fst (fst x)) (snd x)) (zip reqs (fst (run reqs g))).

Definition assigned_ids (reqs : list (request * datetime.t)) (g : globals)
  : list Z :=
  ids_of assigned_id reqs g.

End with_library.
End main.

(** A library instance to evaluate requests with.  Its two texts stand in
    for the library's: they are the first line of pydantic's report and a
    mark where a float's text goes, and no statement below shows either. *)
Definition sample_lib : PyLib :=
  {| float_repr := λ _, "<float>";
     validation_error_str := λ model errors,
       pretty (length errors) +:+ " validation error"
         +:+ (if decide (length errors = 1%nat) then "" else "s")
         +:+ " for " +:+ model |}.

(** A clock reading for the examples. *)
Definition noon : datetime.t := datetime.mk 2024 1 15 12 0 0 0.

(** * Properties *)

(** ** The dispatcher *)

Section dispatcher.
Import main.
Variable self : MCPServer.t.

Lemma call_tool_unregistered tool_name args now g :
  MCPServer.tools self !! tool_name = None →
  MCPServer.call_tool self tool_name args now g
  = (Raise {| status_code := 404;
              detail := "Tool " +:+ tool_name +:+ " not found" |}, g).
Proof. intros Hreg. unfold MCPServer.call_tool. by rewrite Hreg. Qed.

Lemma call_tool_registered tool_name tool args now g :
  MCPServer.tools self !! tool_name = Some tool →
  MCPServer.call_tool self tool_name args now g
  = match pyfunction.call (Tool.function tool) args now g with
    | (Return r, g') => (Return {| result := r |}, g')
    | (Raise e, g') =>
        (Raise {| status_code := 500; detail := exn_str e |}, g')
    end.
Proof. intros Hreg. unfold MCPServer.call_tool. by rewrite Hreg. Qed.

Lemma call_tool_status_404 tool_name args now g d :
  fst (MCPServer.call_tool self tool_name args now g)
  = Raise {| status_code := 404; detail := d |} →
  MCPServer.tools self !! tool_name = None.
Proof.
  destruct (MCPServer.tools self !! tool_name) as [tool|] eqn:Hreg; [|done].
  rewrite (call_tool_registered _ tool) by done.
  destruct (pyfunction.call _ _ _ _) as [[r|e] g']; simpl; [done|].
  intros Hstatus. discriminate Hstatus.
Qed.

End dispatcher.

(** Keywords that fit the signature reach the body, each parameter bound to
    the argument of its name. *)
Lemma call_spreads {R} (f : pyfunction.t R) args now g :
  pyfunction.unexpected f args = None →
  pyfunction.missing f args = [] →
  pyfunction.call f args now g
  = pyfunction.body f (pyfunction.bound f args) now g.
Proof. intros Hu Hm. unfold pyfunction.call. by rewrite Hu, Hm. Qed.

Lemma bound_supplied {R} (f : pyfunction.t R) args k v :
  kw_get k args = Some v → pyfunction.bound f args k = v.
Proof. intros Hk. unfold pyfunction.bound. by rewrite Hk. Qed.

(** C3: [call_tool] answers 404 exactly for an unregistered name; for a
    registered one it calls the stored function with the arguments spread
    as keywords, turns every exception the call raises into a 500 whose
    detail is the exception's own message, and wraps a returned value as
    [{"result": value}]. *)
Theorem call_tool_contract (self : main.MCPServer.t) (tool_name : string)
    (args : kwargs) (now : datetime.t) (g : globals) :
  (main.MCPServer.tools self !! tool_name = None ↔
   ∃ d, fst (main.MCPServer.call_tool self tool_name args now g)
        = Raise {| status_code := 404; detail := d |})
  ∧ (∀ tool, main.MCPServer.tools self !! tool_name = Some tool →
       (∀ e g', pyfunction.call (main.Tool.function tool) args now g
                = (Raise e, g') →
          main.MCPServer.call_tool self tool_name args now g
          = (Raise {| status_code := 500; detail := exn_str e |}, g'))
       ∧ (∀ r g', pyfunction.call (main.Tool.function tool) args now g
                  = (Return r, g') →
            main.MCPServer.call_tool self tool_name args now g
            = (Return {| result := r |}, g'))
       ∧ (pyfunction.unexpected (main.Tool.function tool) args = None →
          pyfunction.missing (main.Tool.function tool) args = [] →
          pyfunction.call (main.Tool.function tool) args now g
          = pyfunction.body (main.Tool.function tool)
              (pyfunction.bound (main.Tool.function tool) args) now g
          ∧ ∀ k v, kw_get k args = Some v →
                   pyfunction.bound (main.Tool.function tool) args k = v)).
Proof.
  split.
  - split.
    + intros Hreg. eexists. by rewrite call_tool_unregistered.
    + intros [d Hd]. by eapply call_tool_status_404.
  - intros tool Hreg. split_and!.
    + intros e g' Hcall.
      by rewrite (call_tool_registered _ _ tool), Hcall.
    + intros r g' Hcall.
      by rewrite (call_tool_registered _ _ tool), Hcall.
    + intros Hu Hm. split; [by apply call_spreads|].
      intros k v. apply bound_supplied.
Qed.

Lemma call_tool_contract_witness :
  main.MCPServer.tools (main.mcp (H := sample_lib)) !! "get_todo"
  = Some (main.Tool.mk main.def_get_todo (default "" (pyfunction.__doc__ main.def_get_todo))
            (main.MCPServer._get_function_params main.def_get_todo))
  ∧ pyfunction.call main.def_get_todo [("id", VInt 5)] noon initial
    = (Raise (ValueError "Todo with ID 5 not found"), initial)
  ∧ main.MCPServer.call_tool (main.mcp (H := sample_lib)) "get_todo"
      [("id", VInt 5)] noon initial
    = (Raise {| status_code := 500; detail := "Todo with ID 5 not found" |},
       initial).
Proof.
  assert (Hreg :
    main.MCPServer.tools (main.mcp (H := sample_lib)) !! "get_todo"
    = Some (main.Tool.mk main.def_get_todo (default "" (pyfunction.__doc__ main.def_get_todo))
              (main.MCPServer._get_function_params main.def_get_todo)))
    by (vm_compute; reflexivity).
  assert (Hcall :
    pyfunction.call main.def_get_todo [("id", VInt 5)] noon initial
    = (Raise (ValueError "Todo with ID 5 not found"), initial))
    by (vm_compute; reflexivity).
  split_and!; [exact Hreg | exact Hcall |].
  destruct (call_tool_contract (main.mcp (H := sample_lib)) "get_todo"
              [("id", VInt 5)] noon initial) as [_ Hregistered].
  destruct (Hregistered _ Hreg) as (Hraise & _ & _).
  exact (Hraise _ _ Hcall).
Defined.

(** ** Calls whose keywords do not fit *)

Section mismatch.
Context {R : Type} (f : pyfunction.t R).

Lemma unexpected_keyword args kv :
  kv ∈ args → fst kv ∉ pyfunction.param_names f →
  is_Some (pyfunction.unexpected f args).
Proof.
  intros Hin Hname. unfold pyfunction.unexpected.
  destruct (list_find_elem_of (λ kv, fst kv ∉ pyfunction.param_names f)
              args kv Hin Hname) as [[i kv'] Hfind].
  rewrite Hfind. by eexists.
Qed.

Lemma missing_required args p :
  p ∈ pyfunction.signature f → Param.default p = None →
  kw_get (Param.name p) args = None →
  pyfunction.missing f args ≠ [].
Proof.
  intros Hin Hdefault Hget Hnil. unfold pyfunction.missing in Hnil.
  apply fmap_nil_inv in Hnil.
  assert (Hp : p ∈ filter
            (λ p, Param.default p = None ∧ kw_get (Param.name p) args = None)
            (pyfunction.signature f)) by (apply list_elem_of_filter; auto).
  rewrite Hnil in Hp. by apply not_elem_of_nil in Hp.
Qed.

Lemma call_mismatch args now g :
  is_Some (pyfunction.unexpected f args) ∨ pyfunction.missing f args ≠ [] →
  ∃ msg, pyfunction.call f args now g = (Raise (TypeError msg), g).
Proof.
  intros Hbad. unfold pyfunction.call.
  destruct (pyfunction.unexpected f args) as [k|]; [by eexists|].
  destruct Hbad as [[k Hk]|Hmissing]; [done|].
  destruct (pyfunction.missing f args) as [|name names]; [done|by eexists].
Qed.

End mismatch.

(** C10: a registered tool called with an unknown argument name, or without
    a required argument, answers 500; the detail is the message of the
    [TypeError] the call raised, the globals are untouched, and the answer
    is the one a [ValueError] of the same message gets. *)
Theorem call_tool_mismatch (self : main.MCPServer.t) (tool_name : string)
    (tool : main.Tool.t) (args : kwargs) (now : datetime.t) (g : globals) :
  main.MCPServer.tools self !! tool_name = Some tool →
  ((∃ kv, kv ∈ args
          ∧ fst kv ∉ pyfunction.param_names (main.Tool.function tool))
   ∨ (∃ p, p ∈ pyfunction.signature (main.Tool.function tool)
           ∧ Param.default p = None
           ∧ kw_get (Param.name p) args = None)) →
  ∃ msg,
    pyfunction.call (main.Tool.function tool) args now g
    = (Raise (TypeError msg), g)
    ∧ main.MCPServer.call_tool self tool_name args now g
      = (Raise {| status_code := 500; detail := msg |}, g)
    ∧ ∀ tool_name' tool' args' g0,
        main.MCPServer.tools self !! tool_name' = Some tool' →
        pyfunction.call (main.Tool.function tool') args' now g0
        = (Raise (ValueError msg), g) →
        main.MCPServer.call_tool self tool_name' args' now g0
        = main.MCPServer.call_tool self tool_name args now g.
Proof.
  intros Hreg Hbad.
  destruct (call_mismatch (main.Tool.function tool) args now g) as [msg Hcall].
  { destruct Hbad as [(kv & Hin & Hname)|(p & Hin & Hdefault & Hget)].
    - left. by eapply unexpected_keyword.
    - right. by eapply missing_required. }
  exists msg. split; [done|].
  assert (Hanswer : main.MCPServer.call_tool self tool_name args now g
    = (Raise {| status_code := 500; detail := msg |}, g)).
  { by rewrite (call_tool_registered _ _ tool), Hcall. }
  split; [done|].
  intros tool_name' tool' args' g0 Hreg' Hcall'.
  by rewrite Hanswer, (call_tool_registered _ _ tool'), Hcall'.
Qed.

Lemma call_tool_mismatch_witness :
  ∃ msg,
    pyfunction.call main.def_get_todo [("ID", VInt 1)] noon initial
    = (Raise (TypeError msg), initial)
    ∧ main.MCPServer.call_tool (main.mcp (H := sample_lib)) "get_todo"
        [("ID", VInt 1)] noon initial
      = (Raise {| status_code := 500; detail := msg |}, initial).
Proof.
  destruct (call_tool_mismatch (main.mcp (H := sample_lib)) "get_todo"
              (main.Tool.mk main.def_get_todo (default "" (pyfunction.__doc__ main.def_get_todo))
                 (main.MCPServer._get_function_params main.def_get_todo))
              [("ID", VInt 1)] noon initial) as (msg & Hcall & Hanswer & _).
  - vm_compute. reflexivity.
  - left. exists ("ID", VInt 1). split; [apply list_elem_of_here|].
    vm_compute. intros Hin. by apply list_elem_of_singleton in Hin.
  - exists msg. split; [exact Hcall | exact Hanswer].
Defined.

(** The two mismatches, as the interpreter words them. *)
Example create_todo_unknown_keyword :
  main.MCPServer.call_tool (main.mcp (H := sample_lib)) "create_todo"
    [("titel", VStr "buy eggs")] noon initial
  = (Raise {| status_code := 500;
              detail := "create_todo() got an unexpected keyword argument 'titel'" |},
     initial).
Proof. vm_compute. reflexivity. Qed.

Example update_todo_missing_id :
  main.MCPServer.call_tool (main.mcp (H := sample_lib)) "update_todo"
    [("title", VStr "buy eggs")] noon initial
  = (Raise {| status_code := 500;
              detail := "update_todo() missing 1 required positional argument: 'id'" |},
     initial).
Proof. vm_compute. reflexivity. Qed.

(** ** The derived parameter schema *)

Section schema.
Import main.





End schema.





(** ** Updates *)

Lemma globals_eta (g : globals) :
  {| todos_db := todos_db g;
     routes_todo_next_id := routes_todo_next_id g;
     main_next_id := main_next_id g |} = g.
Proof. by destruct g. Qed.

Lemma Todo_eta (t : Todo.t) :
  {| Todo.id := Todo.id t; Todo.title := Todo.title t;
     Todo.description := Todo.description t;
     Todo.completed := Todo.completed t;
     Todo.created_at := Todo.created_at t |} = t.
Proof. by destruct t. Qed.

(** The dict [dict(exclude_unset=True)] builds, key by key. *)
Lemma dict_exclude_unset_title (u : TodoUpdate.t) :
  TodoUpdate.dict_exclude_unset u !! "title"
  = if decide ("title" ∈ TodoUpdate.fields_set u)
    then Some (of_option_str (TodoUpdate.title u)) else None.
Proof.
  unfold TodoUpdate.dict_exclude_unset.
  repeat case_decide; by simplify_map_eq.
Qed.

Lemma dict_exclude_unset_description (u : TodoUpdate.t) :
  TodoUpdate.dict_exclude_unset u !! "description"
  = if decide ("description" ∈ TodoUpdate.fields_set u)
    then Some (of_option_str (TodoUpdate.description u)) else None.
Proof.
  unfold TodoUpdate.dict_exclude_unset.
  repeat case_decide; by simplify_map_eq.
Qed.

Lemma dict_exclude_unset_completed (u : TodoUpdate.t) :
  TodoUpdate.dict_exclude_unset u !! "completed"
  = if decide ("completed" ∈ TodoUpdate.fields_set u)
    then Some (of_option_bool (TodoUpdate.completed u)) else None.
Proof.
  unfold TodoUpdate.dict_exclude_unset.
  repeat case_decide; by simplify_map_eq.
Qed.

(** The record a REST update produces from [old]. *)
Lemma rest_updated_record (u : TodoUpdate.t) (old : Todo.t) :
  Todo.copy (TodoUpdate.dict_exclude_unset u) old
  = {| Todo.id := Todo.id old;
       Todo.title :=
         if decide ("title" ∈ TodoUpdate.fields_set u)
         then of_option_str (TodoUpdate.title u) else Todo.title old;
       Todo.description :=
         if decide ("description" ∈ TodoUpdate.fields_set u)
         then of_option_str (TodoUpdate.description u)
         else Todo.description old;
       Todo.completed :=
         if decide ("completed" ∈ TodoUpdate.fields_set u)
         then of_option_bool (TodoUpdate.completed u)
         else Todo.completed old;
       Todo.created_at := Todo.created_at old |}.
Proof.
  unfold Todo.copy.
  rewrite dict_exclude_unset_title, dict_exclude_unset_description,
    dict_exclude_unset_completed.
  by repeat case_decide.
Qed.

(** The record a tool update produces from [old]: an argument that is
    [None] leaves its field as it was. *)
Lemma tool_updated_record (title description completed : value)
    (old : Todo.t) :
  Todo.copy
    (let update_data : gmap string value := ∅ in
     let update_data :=
       if is_not_None title then <["title" := title]> update_data
       else update_data in
     let update_data :=
       if is_not_None description
       then <["description" := description]> update_data
       else update_data in
     if is_not_None completed then <["completed" := completed]> update_data
     else update_data) old
  = {| Todo.id := Todo.id old;
       Todo.title := if is_not_None title then title else Todo.title old;
       Todo.description :=
         if is_not_None description then description
         else Todo.description old;
       Todo.completed :=
         if is_not_None completed then completed else Todo.completed old;
       Todo.created_at := Todo.created_at old |}.
Proof.
  unfold Todo.copy.
  destruct (is_not_None title), (is_not_None description),
    (is_not_None completed); simpl; by simplify_map_eq.
Qed.

Section found.
Variables (g : globals) (i : nat) (old : Todo.t).

Lemma rest_update_found todo_id u :
  list_find (λ todo, Todo.id todo = todo_id) (todos_db g) = Some (i, old) →
  routes.todo.update_todo todo_id u g
  = (Return (Todo.copy (TodoUpdate.dict_exclude_unset u) old),
     {| todos_db :=
          <[i := Todo.copy (TodoUpdate.dict_exclude_unset u) old]> (todos_db g);
        routes_todo_next_id := routes_todo_next_id g;
        main_next_id := main_next_id g |}).
Proof. intros Hfind. unfold routes.todo.update_todo. by rewrite Hfind. Qed.

Lemma tool_update_found id title description completed :
  list_find (λ todo, int_eq (Todo.id todo) id = true) (todos_db g)
  = Some (i, old) →
  main.update_todo id title description completed g
  = (Return (Dict (main.todo_dict
       {| Todo.id := Todo.id old;
          Todo.title := if is_not_None title then title else Todo.title old;
          Todo.description :=
            if is_not_None description then description
            else Todo.description old;
          Todo.completed :=
            if is_not_None completed then completed else Todo.completed old;
          Todo.created_at := Todo.created_at old |})),
     {| todos_db :=
          <[i := {| Todo.id := Todo.id old;
                    Todo.title :=
                      if is_not_None title then title else Todo.title old;
                    Todo.description :=
                      if is_not_None description then description
                      else Todo.description old;
                    Todo.completed :=
                      if is_not_None completed then completed
                      else Todo.completed old;
                    Todo.created_at := Todo.created_at old |}]> (todos_db g);
        routes_todo_next_id := routes_todo_next_id g;
        main_next_id := main_next_id g |}).
Proof.
  intros Hfind. unfold main.update_todo. rewrite Hfind.
  by rewrite tool_updated_record.
Qed.

(** An integer argument finds what the REST path finds. *)
Lemma find_int todo_id (db : list Todo.t) :
  list_find (λ todo, int_eq (Todo.id todo) (VInt todo_id) = true) db
  = list_find (λ todo, Todo.id todo = todo_id) db.
Proof.
  apply list_find_ext. intros t. simpl. apply Z.eqb_eq.
Qed.

End found.

Lemma call_update_todo id title description completed now g :
  pyfunction.call main.def_update_todo
    [("id", id); ("title", title); ("description", description);
     ("completed", completed)] now g
  = main.update_todo id title description completed g.
Proof. reflexivity. Qed.

Lemma call_update_todo_id id now g :
  pyfunction.call main.def_update_todo [("id", id)] now g
  = main.update_todo id VNone VNone VNone g.
Proof. reflexivity. Qed.

Lemma call_update_todo_completed id completed now g :
  pyfunction.call main.def_update_todo
    [("id", id); ("completed", completed)] now g
  = main.update_todo id VNone VNone completed g.
Proof. reflexivity. Qed.

Lemma call_update_todo_description id description now g :
  pyfunction.call main.def_update_todo
    [("id", id); ("description", description)] now g
  = main.update_todo id VNone description VNone g.
Proof. reflexivity. Qed.

(** X23: for the first record that carries an id, an update by that id
    that supplies only [completed: true] keeps [id], [title],
    [description] and [created_at] and sets [completed]; an update that
    supplies nothing returns the record as it was and leaves the globals as
    they were.  The record stays at its index, the list keeps its length
    and every other index keeps its record.  This holds for the REST
    handler and for the tool. *)
Theorem update_frame (g : globals) (todo_id : Z) (i : nat) (old : Todo.t)
    (u_completed u_nothing : TodoUpdate.t) (now : datetime.t) :
  list_find (λ todo, Todo.id todo = todo_id) (todos_db g) = Some (i, old) →
  TodoUpdate.fields_set u_completed = {["completed"]} →
  TodoUpdate.completed u_completed = Some true →
  TodoUpdate.fields_set u_nothing = ∅ →
  let marked :=
    {| Todo.id := Todo.id old; Todo.title := Todo.title old;
       Todo.description := Todo.description old;
       Todo.completed := VBool true;
       Todo.created_at := Todo.created_at old |} in
  let g_marked :=
    {| todos_db := <[i := marked]> (todos_db g);
       routes_todo_next_id := routes_todo_next_id g;
       main_next_id := main_next_id g |} in
  routes.todo.update_todo todo_id u_completed g = (Return marked, g_marked)
  ∧ pyfunction.call main.def_update_todo
      [("id", VInt todo_id); ("completed", VBool true)] now g
    = (Return (Dict (main.todo_dict marked)), g_marked)
  ∧ routes.todo.update_todo todo_id u_nothing g = (Return old, g)
  ∧ pyfunction.call main.def_update_todo [("id", VInt todo_id)] now g
    = (Return (Dict (main.todo_dict old)), g)
  ∧ length (todos_db g_marked) = length (todos_db g)
  ∧ todos_db g_marked !! i = Some marked
  ∧ ∀ j, j ≠ i → todos_db g_marked !! j = todos_db g !! j.
Proof.
  intros Hfind Hset Hcompleted Hnothing marked g_marked.
  pose proof Hfind as (Hi & _ & _)%list_find_Some.
  assert (Hsame : <[i := old]> (todos_db g) = todos_db g)
    by (by apply list_insert_id).
  split_and!.
  - rewrite (rest_update_found g i old) by done.
    rewrite rest_updated_record, Hset, Hcompleted.
    rewrite (decide_False (P := "title" ∈ _))
      by (intros Hin%elem_of_singleton; discriminate Hin).
    rewrite (decide_False (P := "description" ∈ _))
      by (intros Hin%elem_of_singleton; discriminate Hin).
    rewrite (decide_True (P := "completed" ∈ _)) by (by apply elem_of_singleton).
    done.
  - rewrite call_update_todo_completed.
    rewrite (tool_update_found g i old) by (by rewrite find_int).
    done.
  - rewrite (rest_update_found g i old) by done.
    rewrite rest_updated_record, Hnothing.
    rewrite !decide_False by apply not_elem_of_empty.
    by rewrite Todo_eta, Hsame, globals_eta.
  - rewrite call_update_todo_id.
    rewrite (tool_update_found g i old) by (by rewrite find_int).
    simpl. by rewrite Todo_eta, Hsame, globals_eta.
  - apply length_insert.
  - apply list_lookup_insert_eq. by eapply lookup_lt_Some.
  - intros j Hj. by apply list_lookup_insert_ne.
Qed.

Lemma update_frame_witness :
  let old := Todo.mk 1 (VStr "buy milk") (VStr "2 litres") (VBool false) noon in
  let other := Todo.mk 2 (VStr "buy eggs") VNone (VBool false) noon in
  let g := {| todos_db := [old; other];
              routes_todo_next_id := 3; main_next_id := 1 |} in
  routes.todo.update_todo 1 (TodoUpdate.mk None None (Some true) {["completed"]}) g
  = (Return (Todo.mk 1 (VStr "buy milk") (VStr "2 litres") (VBool true) noon),
     {| todos_db :=
          [Todo.mk 1 (VStr "buy milk") (VStr "2 litres") (VBool true) noon;
           other];
        routes_todo_next_id := 3; main_next_id := 1 |}).
Proof.
  intros old other g.
  destruct (update_frame g 1 0 old
              (TodoUpdate.mk None None (Some true) {["completed"]})
              (TodoUpdate.mk None None None ∅) noon) as [Hrest _].
  - reflexivity.
  - reflexivity.
  - reflexivity.
  - reflexivity.
  - exact Hrest.
Defined.

(** On the tool surface an explicit [null] is not told from an absent
    argument: both bind the parameter to [None]. *)
Example tool_update_null_description_kept :
  let old := Todo.mk 1 (VStr "buy milk") (VStr "2 litres") (VBool false) noon in
  let g := {| todos_db := [old];
              routes_todo_next_id := 2; main_next_id := 1 |} in
  let args := [("id", VInt 1); ("description", VNone)] in
  kw_get "description" args = Some VNone
  ∧ main.MCPServer.call_tool (main.mcp (H := sample_lib)) "update_todo"
      args noon g
    = (Return {| result := Dict (main.todo_dict old) |}, g)
  ∧ Todo.description <$> todos_db g !! 0%nat = Some (VStr "2 litres")
  ∧ Todo.description
      <$> todos_db (snd (main.MCPServer.call_tool (main.mcp (H := sample_lib))
                           "update_todo" args noon g)) !! 0%nat
    ≠ Some VNone.
Proof. vm_compute. split_and!; try reflexivity. discriminate. Qed.

(** C2, amended: for the task an id designates, the REST update overwrites
    exactly the fields the request body named, an explicit [null] included,
    and keeps the others; the tool update overwrites exactly the fields
    whose argument is not [None] and keeps the others, so that a [null]
    argument has the effect of an absent one.  Both keep [id] and
    [created_at] and store the new record at the index of the old one. *)
Theorem update_overwrites_supplied (g : globals) (todo_id : Z) (i : nat)
    (old : Todo.t) (u : TodoUpdate.t) (title description completed : value)
    (now : datetime.t) :
  list_find (λ todo, Todo.id todo = todo_id) (todos_db g) = Some (i, old) →
  let rest_new :=
    {| Todo.id := Todo.id old;
       Todo.title :=
         if decide ("title" ∈ TodoUpdate.fields_set u)
         then of_option_str (TodoUpdate.title u) else Todo.title old;
       Todo.description :=
         if decide ("description" ∈ TodoUpdate.fields_set u)
         then of_option_str (TodoUpdate.description u)
         else Todo.description old;
       Todo.completed :=
         if decide ("completed" ∈ TodoUpdate.fields_set u)
         then of_option_bool (TodoUpdate.completed u)
         else Todo.completed old;
       Todo.created_at := Todo.created_at old |} in
  let tool_new :=
    {| Todo.id := Todo.id old;
       Todo.title := if is_not_None title then title else Todo.title old;
       Todo.description :=
         if is_not_None description then description
         else Todo.description old;
       Todo.completed :=
         if is_not_None completed then completed else Todo.completed old;
       Todo.created_at := Todo.created_at old |} in
  routes.todo.update_todo todo_id u g
  = (Return rest_new,
     {| todos_db := <[i := rest_new]> (todos_db g);
        routes_todo_next_id := routes_todo_next_id g;
        main_next_id := main_next_id g |})
  ∧ pyfunction.call main.def_update_todo
      [("id", VInt todo_id); ("title", title); ("description", description);
       ("completed", completed)] now g
    = (Return (Dict (main.todo_dict tool_new)),
       {| todos_db := <[i := tool_new]> (todos_db g);
          routes_todo_next_id := routes_todo_next_id g;
          main_next_id := main_next_id g |})
  ∧ pyfunction.call main.def_update_todo
      [("id", VInt todo_id); ("description", VNone)] now g
    = pyfunction.call main.def_update_todo [("id", VInt todo_id)] now g.
Proof.
  intros Hfind rest_new tool_new. split_and!.
  - rewrite (rest_update_found g i old) by done.
    by rewrite rest_updated_record.
  - rewrite call_update_todo.
    by rewrite (tool_update_found g i old) by (by rewrite find_int).
  - reflexivity.
Qed.

Lemma update_overwrites_supplied_witness :
  let old := Todo.mk 1 (VStr "buy milk") (VStr "2 litres") (VBool false) noon in
  let g := {| todos_db := [old];
              routes_todo_next_id := 2; main_next_id := 1 |} in
  routes.todo.update_todo 1 (TodoUpdate.mk None None None {["description"]}) g
  = (Return (Todo.mk 1 (VStr "buy milk") VNone (VBool false) noon),
     {| todos_db := [Todo.mk 1 (VStr "buy milk") VNone (VBool false) noon];
        routes_todo_next_id := 2; main_next_id := 1 |}).
Proof.
  intros old g.
  destruct (update_overwrites_supplied g 1 0 old
              (TodoUpdate.mk None None None {["description"]})
              VNone VNone VNone noon) as [Hrest _].
  - reflexivity.
  - exact Hrest.
Defined.

(** ** The registry of [main.py] *)

Section registry.
Context (L : PyLib).

Lemma mcp_create_todo :
  main.MCPServer.tools (main.mcp (H := L)) !! "create_todo"
  = Some (main.Tool.mk (main.def_create_todo (H := L))
            (default "" (pyfunction.__doc__ (main.def_create_todo (H := L))))
            (main.MCPServer._get_function_params
               (main.def_create_todo (H := L)))).
Proof. reflexivity. Qed.

Lemma mcp_list_todos :
  main.MCPServer.tools (main.mcp (H := L)) !! "list_todos"
  = Some (main.Tool.mk main.def_list_todos (default "" (pyfunction.__doc__ main.def_list_todos))
            (main.MCPServer._get_function_params main.def_list_todos)).
Proof. reflexivity. Qed.

Lemma mcp_get_todo :
  main.MCPServer.tools (main.mcp (H := L)) !! "get_todo"
  = Some (main.Tool.mk main.def_get_todo (default "" (pyfunction.__doc__ main.def_get_todo))
            (main.MCPServer._get_function_params main.def_get_todo)).
Proof. reflexivity. Qed.

Lemma mcp_update_todo :
  main.MCPServer.tools (main.mcp (H := L)) !! "update_todo"
  = Some (main.Tool.mk main.def_update_todo (default "" (pyfunction.__doc__ main.def_update_todo))
            (main.MCPServer._get_function_params main.def_update_todo)).
Proof. reflexivity. Qed.

Lemma mcp_delete_todo :
  main.MCPServer.tools (main.mcp (H := L)) !! "delete_todo"
  = Some (main.Tool.mk main.def_delete_todo (default "" (pyfunction.__doc__ main.def_delete_todo))
            (main.MCPServer._get_function_params main.def_delete_todo)).
Proof. reflexivity. Qed.

(** A request to a registered tool, in terms of the call it makes. *)
Lemma app_tool tool_name tool args now g :
  main.MCPServer.tools (main.mcp (H := L)) !! tool_name = Some tool →
  main.app (H := L) (main.POST_mcp_tools tool_name args) now g
  = match pyfunction.call (main.Tool.function tool) args now g with
    | (Return r, g') => (main.OkTool {| result := r |}, g')
    | (Raise e, g') =>
        (main.Failed {| status_code := 500; detail := exn_str e |}, g')
    end.
Proof.
  intros Hreg. simpl. rewrite (call_tool_registered _ _ tool) by done.
  by destruct (pyfunction.call _ _ _ _) as [[r|e] g'].
Qed.

Lemma call_get_todo id now g :
  pyfunction.call main.def_get_todo [("id", id)] now g = main.get_todo id g.
Proof. reflexivity. Qed.

Lemma call_delete_todo id now g :
  pyfunction.call main.def_delete_todo [("id", id)] now g
  = main.delete_todo id g.
Proof. reflexivity. Qed.

End registry.

(** ** Lookups that fail *)

Lemma rest_find_absent (db : list Todo.t) (todo_id : Z) :
  Forall (λ todo, Todo.id todo ≠ todo_id) db →
  list_find (λ todo, Todo.id todo = todo_id) db = None.
Proof. intros Habsent. by apply list_find_None. Qed.

Lemma tool_find_absent (db : list Todo.t) (id : value) :
  Forall (λ todo, int_eq (Todo.id todo) id = false) db →
  list_find (λ todo, int_eq (Todo.id todo) id = true) db = None.
Proof.
  intros Habsent. apply list_find_None.
  eapply Forall_impl; [exact Habsent|]. simpl. intros t Hf Ht. congruence.
Qed.

(** C9: when no record carries the id, get, update and delete fail on both
    surfaces (404 from the REST handlers, [ValueError] from the tools, which
    the dispatcher answers with 500) and the globals after the failure are
    the globals before it: the same list in the same order and the same
    counters. *)
Theorem not_found_leaves_globals (L : PyLib) (g : globals) (todo_id : Z)
    (id : value) (u : TodoUpdate.t) (title description completed : value)
    (now : datetime.t) :
  Forall (λ todo, Todo.id todo ≠ todo_id) (todos_db g) →
  Forall (λ todo, int_eq (Todo.id todo) id = false) (todos_db g) →
  main.app (H := L) (main.GET_todos_id todo_id) now g
  = (main.Failed routes.todo.not_found, g)
  ∧ main.app (H := L) (main.PUT_todos_id todo_id u) now g
    = (main.Failed routes.todo.not_found, g)
  ∧ main.app (H := L) (main.DELETE_todos_id todo_id) now g
    = (main.Failed routes.todo.not_found, g)
  ∧ main.get_todo id g = (Raise (main.not_found id), g)
  ∧ main.update_todo id title description completed g
    = (Raise (main.not_found id), g)
  ∧ main.delete_todo id g = (Raise (main.not_found id), g)
  ∧ main.app (H := L) (main.POST_mcp_tools "get_todo" [("id", id)]) now g
    = (main.Failed {| status_code := 500;
                      detail := exn_str (main.not_found id) |}, g)
  ∧ main.app (H := L)
      (main.POST_mcp_tools "update_todo"
         [("id", id); ("title", title); ("description", description);
          ("completed", completed)]) now g
    = (main.Failed {| status_code := 500;
                      detail := exn_str (main.not_found id) |}, g)
  ∧ main.app (H := L) (main.POST_mcp_tools "delete_todo" [("id", id)]) now g
    = (main.Failed {| status_code := 500;
                      detail := exn_str (main.not_found id) |}, g).
Proof.
  intros Hrest Htool.
  apply rest_find_absent in Hrest. apply tool_find_absent in Htool.
  assert (Hget : main.get_todo id g = (Raise (main.not_found id), g))
    by (unfold main.get_todo; by rewrite Htool).
  assert (Hupdate : main.update_todo id title description completed g
                    = (Raise (main.not_found id), g))
    by (unfold main.update_todo; by rewrite Htool).
  assert (Hdelete : main.delete_todo id g = (Raise (main.not_found id), g))
    by (unfold main.delete_todo; by rewrite Htool).
  split_and!; try done.
  - simpl. unfold routes.todo.get_todo. by rewrite Hrest.
  - simpl. unfold routes.todo.update_todo. by rewrite Hrest.
  - simpl. unfold routes.todo.delete_todo. by rewrite Hrest.
  - rewrite (app_tool L _ _ _ _ _ (mcp_get_todo L)). simpl main.Tool.function.
    by rewrite call_get_todo, Hget.
  - rewrite (app_tool L _ _ _ _ _ (mcp_update_todo L)).
    simpl main.Tool.function. by rewrite call_update_todo, Hupdate.
  - rewrite (app_tool L _ _ _ _ _ (mcp_delete_todo L)).
    simpl main.Tool.function. by rewrite call_delete_todo, Hdelete.
Qed.

Lemma not_found_leaves_globals_witness :
  let g := {| todos_db := [Todo.mk 1 (VStr "buy milk") VNone (VBool false) noon];
              routes_todo_next_id := 2; main_next_id := 1 |} in
  main.app (H := sample_lib) (main.DELETE_todos_id 7) noon g
  = (main.Failed routes.todo.not_found, g)
  ∧ main.app (H := sample_lib)
      (main.POST_mcp_tools "delete_todo" [("id", VStr "one")]) noon g
    = (main.Failed {| status_code := 500;
                      detail := "Todo with ID one not found" |}, g).
Proof.
  intros g.
  destruct (not_found_leaves_globals sample_lib g 7 (VStr "one")
              (TodoUpdate.mk None None None ∅) VNone VNone VNone noon)
    as (_ & _ & Hrest & _ & _ & _ & _ & _ & Htool).
  - repeat constructor. discriminate.
  - repeat constructor.
  - split; [exact Hrest | exact Htool].
Defined.

(** ** The summary resource *)

#[local] Set Warnings "-inexact-float".

Lemma count_completed_from (db : list Todo.t) (acc : Z) :
  foldl (λ acc todo, if truthy (Todo.completed todo) then acc + 1 else acc)
        acc db
  = acc + Z.of_nat
            (length (filter (λ todo, truthy (Todo.completed todo) = true) db)).
Proof.
  revert acc. induction db as [|t db IH]; intros acc; simpl; [lia|].
  rewrite IH. rewrite filter_cons.
  destruct (truthy (Todo.completed t)); case_decide; try done; simpl; lia.
Qed.

Lemma count_completed_filter (db : list Todo.t) :
  main.count_completed db
  = Z.of_nat (length (filter (λ todo, truthy (Todo.completed todo) = true) db)).
Proof. unfold main.count_completed. by rewrite count_completed_from. Qed.

Lemma truthy_flags (db : list Todo.t) :
  Forall (λ todo, ∃ b, Todo.completed todo = VBool b) db →
  filter (λ todo, truthy (Todo.completed todo) = true) db
  = filter (λ todo, Todo.completed todo = VBool true) db.
Proof.
  induction 1 as [|t db [b Hb] _ IH]; [done|].
  rewrite !filter_cons, IH, Hb. simpl.
  destruct b; repeat case_decide; congruence.
Qed.

Lemma todo_summary_registered (L : PyLib) :
  main.MCPServer.resources (main.mcp (H := L)) !! "todo_summary"
  = Some (main.Resource.mk (main.def_todo_summary (H := L))
            (default "" (pyfunction.__doc__ (main.def_todo_summary (H := L))))).
Proof. reflexivity. Qed.

(** The claim of C5 fails on a store a request sequence reaches: the
    [update_todo] tool stores the text it is given as [completed], the
    summary counts that record, and no record has [completed = true]. *)
Example summary_counts_truthy_flag :
  let g :=
    snd (main.run (H := sample_lib)
           [ (main.POST_todos (TodoCreate.mk "buy milk" None), noon);
             (main.POST_mcp_tools "update_todo"
                [("id", VInt 1); ("completed", VStr "no")], noon) ]
           initial) in
  todos_db g = [Todo.mk 1 (VStr "buy milk") VNone (VStr "no") noon]
  ∧ main.summary (todos_db g)
    = [ ("total_todos", main.NInt 1);
        ("completed_todos", main.NInt 1);
        ("pending_todos", main.NInt 0);
        ("completion_rate", main.NFloat 100) ]
  ∧ filter (λ todo, Todo.completed todo = VBool true) (todos_db g) = [].
Proof. vm_compute. split_and!; reflexivity. Qed.

(** C5, amended: the [todo_summary] resource answers, for every store,
    with the JSON text (one key per line, indented by two) of the object
    whose [total_todos] is the number of records, [completed_todos] the
    number of records whose [completed] is truthy, [pending_todos] their
    difference and [completion_rate] the integer 0 for an empty store and
    the float [completed_todos / total_todos * 100] otherwise.  When every
    [completed] is a boolean, [completed_todos] is the number of records
    with [completed = true].  With no task the rate is 0; with three tasks
    of which one is counted it lies between 33.33 and 33.34. *)
Theorem todo_summary_contract (L : PyLib) (g : globals) (now : datetime.t) :
  let db := todos_db g in
  let total_todos := Z.of_nat (length db) in
  let completed_todos :=
    Z.of_nat (length (filter (λ todo, truthy (Todo.completed todo) = true) db)) in
  let completion_rate :=
    if decide (total_todos = 0) then main.NInt 0
    else main.NFloat
           (main.float_of_Z completed_todos / main.float_of_Z total_todos * 100)
  in
  let nl := String "010"%char "" in
  let dq := String "034"%char "" in
  main.MCPServer.get_resource (main.mcp (H := L)) "todo_summary" now g
  = (Return {| result :=
       "{" +:+ nl
         +:+ String.concat ("," +:+ nl)
               [ "  " +:+ dq +:+ "total_todos" +:+ dq +:+ ": "
                   +:+ pretty total_todos;
                 "  " +:+ dq +:+ "completed_todos" +:+ dq +:+ ": "
                   +:+ pretty completed_todos;
                 "  " +:+ dq +:+ "pending_todos" +:+ dq +:+ ": "
                   +:+ pretty (total_todos - completed_todos);
                 "  " +:+ dq +:+ "completion_rate" +:+ dq +:+ ": "
                   +:+ match completion_rate with
                       | main.NInt z => pretty z
                       | main.NFloat x => float_repr x
                       end ]
         +:+ nl +:+ "}" |}, g)
  ∧ main.summary db
    = [ ("total_todos", main.NInt total_todos);
        ("completed_todos", main.NInt completed_todos);
        ("pending_todos", main.NInt (total_todos - completed_todos));
        ("completion_rate", completion_rate) ]
  ∧ (0 ≤ completed_todos ≤ total_todos)%Z
  ∧ (Forall (λ todo, ∃ b, Todo.completed todo = VBool b) db →
     completed_todos
     = Z.of_nat
         (length (filter (λ todo, Todo.completed todo = VBool true) db)))
  ∧ (total_todos = 0 → completion_rate = main.NInt 0)
  ∧ (total_todos = 3 → completed_todos = 1 →
     ∃ x, completion_rate = main.NFloat x
          ∧ (33.33 <? x)%float = true ∧ (x <? 33.34)%float = true).
Proof.
  intros db total_todos completed_todos completion_rate nl dq.
  assert (Hsummary : main.summary db
    = [ ("total_todos", main.NInt total_todos);
        ("completed_todos", main.NInt completed_todos);
        ("pending_todos", main.NInt (total_todos - completed_todos));
        ("completion_rate", completion_rate) ]).
  { unfold main.summary. rewrite count_completed_filter.
    fold db total_todos completed_todos. repeat f_equal.
    subst completion_rate. repeat case_decide; try done; lia. }
  split_and!.
  - unfold main.MCPServer.get_resource.
    rewrite todo_summary_registered.
    change (pyfunction.call (main.Resource.function _) [] now g)
      with (main.todo_summary (H := L) g).
    unfold main.todo_summary. fold db. by rewrite Hsummary.
  - done.
  - lia.
  - subst completed_todos total_todos. apply inj_le, length_filter.
  - intros Hflags. subst completed_todos. by rewrite truthy_flags.
  - intros Hzero. subst completion_rate. by rewrite decide_True.
  - intros Hthree Hone. subst completion_rate.
    rewrite Hthree, Hone. rewrite decide_False by lia.
    eexists. split; [reflexivity|]. by vm_compute.
Qed.

Lemma todo_summary_contract_witness :
  let db := [ Todo.mk 1 (VStr "buy milk") VNone (VBool true) noon;
              Todo.mk 2 (VStr "buy eggs") VNone (VBool false) noon;
              Todo.mk 3 (VStr "buy tea") VNone (VBool false) noon ] in
  main.summary db
  = [ ("total_todos", main.NInt 3);
      ("completed_todos", main.NInt 1);
      ("pending_todos", main.NInt 2);
      ("completion_rate", main.NFloat (1 / 3 * 100)) ]
  ∧ Z.of_nat (length (filter (λ todo, Todo.completed todo = VBool true) db)) = 1
  ∧ ∃ x, main.NFloat (1 / 3 * 100) = main.NFloat x
         ∧ (33.33 <? x)%float = true ∧ (x <? 33.34)%float = true.
Proof.
  intros db.
  destruct (todo_summary_contract sample_lib
              {| todos_db := db; routes_todo_next_id := 4; main_next_id := 1 |}
              noon) as (_ & Hsummary & _ & Hflags & _ & Hrate).
  split_and!.
  - exact Hsummary.
  - symmetry. apply Hflags. repeat constructor; by eexists.
  - apply Hrate; reflexivity.
Defined.

(** The text for an empty store. *)
Example todo_summary_empty :
  main.MCPServer.get_resource (main.mcp (H := sample_lib)) "todo_summary"
    noon initial
  = (Return {| result :=
       "{" +:+ main.newline
         +:+ "  " +:+ main.dquote +:+ "total_todos" +:+ main.dquote +:+ ": 0,"
         +:+ main.newline
         +:+ "  " +:+ main.dquote +:+ "completed_todos" +:+ main.dquote
         +:+ ": 0," +:+ main.newline
         +:+ "  " +:+ main.dquote +:+ "pending_todos" +:+ main.dquote
         +:+ ": 0," +:+ main.newline
         +:+ "  " +:+ main.dquote +:+ "completion_rate" +:+ main.dquote
         +:+ ": 0" +:+ main.newline +:+ "}" |}, initial).
Proof. vm_compute. reflexivity. Qed.

(** ** Identifiers across the two surfaces *)

(** C1: the two surfaces do not draw from one counter.  From the initial
    state, a create through the REST router is assigned id 1 and the
    following create through the [create_todo] tool is assigned id 1 again,
    where the specification has 2: [main.py] increments its own copy of
    [next_id]. *)
Theorem create_ids_collide :
  main.assigned_ids (H := sample_lib)
    [ (main.POST_todos (TodoCreate.mk "buy milk" None), noon);
      (main.POST_mcp_tools "create_todo" [("title", VStr "buy eggs")], noon) ]
    initial
  = [1; 1]
  ∧ snd (main.run (H := sample_lib)
           [ (main.POST_todos (TodoCreate.mk "buy milk" None), noon);
             (main.POST_mcp_tools "create_todo" [("title", VStr "buy eggs")],
              noon) ]
           initial)
    = {| todos_db :=
           [ Todo.mk 1 (VStr "buy milk") VNone (VBool false) noon;
             Todo.mk 1 (VStr "buy eggs") VNone (VBool false) noon ];
         routes_todo_next_id := 2;
         main_next_id := 2 |}.
Proof. vm_compute. split; reflexivity. Qed.

(** C7: a task created through the REST router after one created through
    the tool gets the id the first one has, and fetching that id returns
    the first task, not the one just created. *)
Theorem create_then_get_other :
  fst (main.run (H := sample_lib)
         [ (main.POST_mcp_tools "create_todo" [("title", VStr "buy eggs")],
            noon);
           (main.POST_todos (TodoCreate.mk "buy milk" None), noon);
           (main.GET_todos_id 1, noon) ]
         initial)
  = [ main.OkTool {| result := Dict
        (main.todo_dict (Todo.mk 1 (VStr "buy eggs") VNone (VBool false) noon)) |};
      main.Created (Todo.mk 1 (VStr "buy milk") VNone (VBool false) noon);
      main.OkTodo (Todo.mk 1 (VStr "buy eggs") VNone (VBool false) noon) ].
Proof. vm_compute. reflexivity. Qed.

(** C8: with two records sharing id 1, one created on each surface, the
    second delete of id 1 succeeds as the first did; only the third is
    answered 404. *)
Theorem delete_twice_succeeds_twice :
  fst (main.run (H := sample_lib)
         [ (main.POST_todos (TodoCreate.mk "buy milk" None), noon);
           (main.POST_mcp_tools "create_todo" [("title", VStr "buy eggs")],
            noon);
           (main.DELETE_todos_id 1, noon);
           (main.DELETE_todos_id 1, noon);
           (main.DELETE_todos_id 1, noon) ]
         initial)
  = [ main.Created (Todo.mk 1 (VStr "buy milk") VNone (VBool false) noon);
      main.OkTool {| result := Dict
        (main.todo_dict (Todo.mk 1 (VStr "buy eggs") VNone (VBool false) noon)) |};
      main.OkMessage "Todo 'buy milk' deleted successfully";
      main.OkMessage "Todo 'buy eggs' deleted successfully";
      main.Failed {| status_code := 404; detail := "Todo not found" |} ].
Proof. vm_compute. reflexivity. Qed.

(** C6: with two records sharing id 1, one created on each surface,
    updating the second by its id with only [completed: true] marks the
    first: the answer is the first task, and the second is left not
    completed.  The update is found by id, and the id does not tell the two
    apart. *)
Theorem update_marks_other_task :
  main.run (H := sample_lib)
    [ (main.POST_todos (TodoCreate.mk "buy milk" None), noon);
      (main.POST_mcp_tools "create_todo" [("title", VStr "buy eggs")], noon);
      (main.PUT_todos_id 1
         (TodoUpdate.mk None None (Some true) {["completed"]}), noon) ]
    initial
  = ([ main.Created (Todo.mk 1 (VStr "buy milk") VNone (VBool false) noon);
       main.OkTool {| result := Dict
         (main.todo_dict (Todo.mk 1 (VStr "buy eggs") VNone (VBool false) noon)) |};
       main.OkTodo (Todo.mk 1 (VStr "buy milk") VNone (VBool true) noon) ],
     {| todos_db :=
          [ Todo.mk 1 (VStr "buy milk") VNone (VBool true) noon;
            Todo.mk 1 (VStr "buy eggs") VNone (VBool false) noon ];
        routes_todo_next_id := 2;
        main_next_id := 2 |}).
Proof. vm_compute. reflexivity. Qed.

(** ** What holds of delete and of create-then-get *)

Section delete.
Variables (g : globals) (i : nat) (deleted : Todo.t).

(** A delete removes the first record carrying the id and names its title. *)
Lemma rest_delete_found todo_id :
  list_find (λ todo, Todo.id todo = todo_id) (todos_db g) = Some (i, deleted) →
  routes.todo.delete_todo todo_id g
  = (Return ("Todo '" +:+ py_str (Todo.title deleted)
               +:+ "' deleted successfully"),
     {| todos_db := delete i (todos_db g);
        routes_todo_next_id := routes_todo_next_id g;
        main_next_id := main_next_id g |}).
Proof. intros Hfind. unfold routes.todo.delete_todo. by rewrite Hfind. Qed.

Lemma tool_delete_found id :
  list_find (λ todo, int_eq (Todo.id todo) id = true) (todos_db g)
  = Some (i, deleted) →
  main.delete_todo id g
  = (Return (Dict [("message",
                    VStr ("Todo '" +:+ py_str (Todo.title deleted)
                            +:+ "' deleted successfully"))]),
     {| todos_db := delete i (todos_db g);
        routes_todo_next_id := routes_todo_next_id g;
        main_next_id := main_next_id g |}).
Proof. intros Hfind. unfold main.delete_todo. by rewrite Hfind. Qed.

(** When the id is carried by one record only, nothing carries it after
    the delete, and a second delete is answered 404. *)
Lemma delete_leaves_none todo_id :
  list_find (λ todo, Todo.id todo = todo_id) (todos_db g) = Some (i, deleted) →
  (∀ j t, todos_db g !! j = Some t → Todo.id t = todo_id → j = i) →
  Forall (λ todo, Todo.id todo ≠ todo_id) (delete i (todos_db g)).
Proof.
  intros Hfind Honce. apply Forall_lookup. intros j t Hj Hid.
  destruct (decide (j < i)%nat) as [Hlt|Hge].
  - rewrite list_lookup_delete_lt in Hj by done.
    specialize (Honce _ _ Hj Hid). lia.
  - rewrite list_lookup_delete_ge in Hj by lia.
    specialize (Honce _ _ Hj Hid). lia.
Qed.

Lemma rest_delete_twice todo_id :
  list_find (λ todo, Todo.id todo = todo_id) (todos_db g) = Some (i, deleted) →
  (∀ j t, todos_db g !! j = Some t → Todo.id t = todo_id → j = i) →
  ∃ message g',
    routes.todo.delete_todo todo_id g = (Return message, g')
    ∧ routes.todo.delete_todo todo_id g' = (Raise routes.todo.not_found, g').
Proof.
  intros Hfind Honce. do 2 eexists. split; [by apply rest_delete_found|].
  unfold routes.todo.delete_todo. simpl.
  by rewrite rest_find_absent by (by apply delete_leaves_none).
Qed.

End delete.

Section create_then_get.
Variable g : globals.

(** When no stored record carries the value of the router's counter, the
    task a REST create returns is the task a fetch of its id returns. *)
Lemma rest_create_then_get todo now :
  Forall (λ t, Todo.id t ≠ routes_todo_next_id g) (todos_db g) →
  routes.todo.get_todo (Todo.id (fst (routes.todo.create_todo todo now g)))
    (snd (routes.todo.create_todo todo now g))
  = Return (fst (routes.todo.create_todo todo now g)).
Proof.
  intros Hfresh. unfold routes.todo.get_todo. simpl.
  rewrite list_find_app_r by (by apply rest_find_absent).
  simpl. by rewrite decide_True.
Qed.

(** The same for the tool, with its own counter. *)
Lemma tool_create_then_get (L : PyLib) title description now r g' :
  Forall (λ t, Todo.id t ≠ main_next_id g) (todos_db g) →
  main.create_todo (H := L) title description now g = (Return r, g') →
  main.get_todo (VInt (main_next_id g)) g' = (Return r, g').
Proof.
  intros Hfresh. unfold main.create_todo.
  destruct (Todo.validation_errors title description); [|done].
  intros [= <- <-]. unfold main.get_todo. rewrite find_int.
  cbn [todos_db].
  rewrite list_find_app_r by (by apply rest_find_absent).
  simpl. by rewrite decide_True.
Qed.

End create_then_get.

(** ** Identifiers within one surface *)

Lemma call_cases {R} (f : pyfunction.t R) args now g :
  (∃ msg, pyfunction.call f args now g = (Raise (TypeError msg), g))
  ∨ pyfunction.call f args now g
    = pyfunction.body f (pyfunction.bound f args) now g.
Proof.
  unfold pyfunction.call.
  destruct (pyfunction.unexpected f args) as [k|]; [left; by eexists|].
  destruct (pyfunction.missing f args) as [|name names];
    [by right | left; by eexists].
Qed.

Section tools_of_mcp.
Context (L : PyLib).

Lemma mcp_tools_other tool_name :
  tool_name ≠ "create_todo" → tool_name ≠ "list_todos" →
  tool_name ≠ "get_todo" → tool_name ≠ "update_todo" →
  tool_name ≠ "delete_todo" →
  main.MCPServer.tools (main.mcp (H := L)) !! tool_name = None.
Proof.
  intros ? ? ? ? ?. unfold main.mcp, main.MCPServer.resource, main.MCPServer.tool.
  cbn [main.MCPServer.tools main.mcp0 main.MCPServer.__init__
       pyfunction.__name__ main.def_create_todo main.def_list_todos
       main.def_get_todo main.def_update_todo main.def_delete_todo].
  rewrite !lookup_insert_ne by done. apply lookup_empty.
Qed.

(** What a tool request does to the globals: a failure leaves them as they
    were; [create_todo] appends a record numbered by [main]'s counter and
    advances that counter; the other tools leave both counters alone. *)
Lemma call_tool_mcp_cases tool_name args now g :
  (∃ e, main.MCPServer.call_tool (main.mcp (H := L)) tool_name args now g
        = (Raise e, g))
  ∨ (tool_name = "create_todo"
     ∧ ∃ title description,
         main.MCPServer.call_tool (main.mcp (H := L)) tool_name args now g
         = (Return {| result := Dict (main.todo_dict
                        (Todo.mk (main_next_id g) title description
                           (VBool false) now)) |},
            {| todos_db :=
                 todos_db g ++ [Todo.mk (main_next_id g) title description
                                  (VBool false) now];
               routes_todo_next_id := routes_todo_next_id g;
               main_next_id := main_next_id g + 1 |}))
  ∨ (tool_name ≠ "create_todo"
     ∧ ∃ r g',
         main.MCPServer.call_tool (main.mcp (H := L)) tool_name args now g
         = (Return r, g')
         ∧ routes_todo_next_id g' = routes_todo_next_id g
         ∧ main_next_id g' = main_next_id g).
Proof.
  destruct (decide (tool_name = "create_todo")) as [->|Hcreate].
  { rewrite (call_tool_registered _ _ _ _ _ _ (mcp_create_todo L)).
    cbn [main.Tool.function].
    destruct (call_cases (main.def_create_todo (H := L)) args now g)
      as [[msg ->]| ->]; [left; by eexists|].
    cbn [pyfunction.body main.def_create_todo]. unfold main.create_todo.
    destruct (Todo.validation_errors _ _); [|left; by eexists].
    right; left. split; [done|]. by do 2 eexists. }
  destruct (decide (tool_name = "list_todos")) as [->|Hlist].
  { rewrite (call_tool_registered _ _ _ _ _ _ (mcp_list_todos L)).
    cbn [main.Tool.function].
    destruct (call_cases main.def_list_todos args now g)
      as [[msg ->]| ->]; [left; by eexists|].
    right; right. split; [done|]. by do 2 eexists. }
  destruct (decide (tool_name = "get_todo")) as [->|Hget].
  { rewrite (call_tool_registered _ _ _ _ _ _ (mcp_get_todo L)).
    cbn [main.Tool.function].
    destruct (call_cases main.def_get_todo args now g)
      as [[msg ->]| ->]; [left; by eexists|].
    cbn [pyfunction.body main.def_get_todo]. unfold main.get_todo.
    destruct (list_find _ _) as [[i t]|]; [|left; by eexists].
    right; right. split; [done|]. by do 2 eexists. }
  destruct (decide (tool_name = "update_todo")) as [->|Hupdate].
  { rewrite (call_tool_registered _ _ _ _ _ _ (mcp_update_todo L)).
    cbn [main.Tool.function].
    destruct (call_cases main.def_update_todo args now g)
      as [[msg ->]| ->]; [left; by eexists|].
    cbn [pyfunction.body main.def_update_todo]. unfold main.update_todo.
    destruct (list_find _ _) as [[i t]|]; [|left; by eexists].
    right; right. split; [done|]. by do 2 eexists. }
  destruct (decide (tool_name = "delete_todo")) as [->|Hdelete].
  { rewrite (call_tool_registered _ _ _ _ _ _ (mcp_delete_todo L)).
    cbn [main.Tool.function].
    destruct (call_cases main.def_delete_todo args now g)
      as [[msg ->]| ->]; [left; by eexists|].
    cbn [pyfunction.body main.def_delete_todo]. unfold main.delete_todo.
    destruct (list_find _ _) as [[i t]|]; [|left; by eexists].
    right; right. split; [done|]. by do 2 eexists. }
  left. eexists. by rewrite call_tool_unregistered by (by apply mcp_tools_other).
Qed.

End tools_of_mcp.

Section one_surface.
Context (L : PyLib).

Lemma ids_of_cons sel req now rest g :
  main.ids_of (H := L) sel ((req, now) :: rest) g
  = (match sel req (fst (main.app (H := L) req now g)) with
     | Some z => [z]
     | None => []
     end
     ++ main.ids_of (H := L) sel rest (snd (main.app (H := L) req now g)))%list.
Proof.
  unfold main.ids_of. cbn [main.run].
  destruct (main.app req now g) as [r g']. cbn [fst snd].
  destruct (main.run rest g') as [rs g'']. simpl.
  by destruct (sel req r).
Qed.

(** The router's counter never goes down, and a REST create hands out its
    value and advances it. *)
Lemma rest_counter_step req now g :
  (routes_todo_next_id g
   ≤ routes_todo_next_id (snd (main.app (H := L) req now g)))%Z
  ∧ ∀ z, main.rest_assigned_id req (fst (main.app (H := L) req now g)) = Some z →
         z = routes_todo_next_id g
         ∧ routes_todo_next_id (snd (main.app (H := L) req now g))
           = routes_todo_next_id g + 1.
Proof.
  destruct req as [todo| |todo_id|todo_id u|todo_id|tool_name args|name].
  - simpl. split; [lia|]. by intros z [= <-].
  - simpl. split; [lia|done].
  - simpl. split; [lia|]. by destruct (routes.todo.get_todo todo_id g).
  - simpl. unfold routes.todo.update_todo.
    destruct (list_find _ _) as [[i t]|]; simpl; (split; [lia|done]).
  - simpl. unfold routes.todo.delete_todo.
    destruct (list_find _ _) as [[i t]|]; simpl; (split; [lia|done]).
  - cbn [main.app].
    destruct (call_tool_mcp_cases L tool_name args now g)
      as [[e ->]|[(_ & title & description & ->)|(_ & r & g' & -> & Hr & _)]];
      simpl; (split; [lia|done]).
  - cbn [main.app]. unfold main.MCPServer.get_resource.
    destruct (main.MCPServer.resources main.mcp !! name) as [res|] eqn:Hres;
      [|simpl; split; [lia|done]].
    destruct (decide (name = "todo_summary")) as [->|Hname].
    + rewrite todo_summary_registered in Hres. injection Hres as <-.
      simpl. split; [lia|done].
    + exfalso. revert Hres. unfold main.mcp, main.MCPServer.resource.
      cbn [main.MCPServer.resources main.MCPServer.tool main.mcp0
           main.MCPServer.__init__ pyfunction.__name__ main.def_todo_summary].
      by rewrite lookup_insert_ne, lookup_empty.
Qed.

(** The same for [main]'s counter and the [create_todo] tool. *)
Lemma tool_counter_step req now g :
  (main_next_id g ≤ main_next_id (snd (main.app (H := L) req now g)))%Z
  ∧ ∀ z, main.tool_assigned_id req (fst (main.app (H := L) req now g)) = Some z →
         z = main_next_id g
         ∧ main_next_id (snd (main.app (H := L) req now g))
           = main_next_id g + 1.
Proof.
  destruct req as [todo| |todo_id|todo_id u|todo_id|tool_name args|name].
  - simpl. split; [lia|done].
  - simpl. split; [lia|done].
  - simpl. split; [lia|]. by destruct (routes.todo.get_todo todo_id g).
  - simpl. unfold routes.todo.update_todo.
    destruct (list_find _ _) as [[i t]|]; simpl; (split; [lia|done]).
  - simpl. unfold routes.todo.delete_todo.
    destruct (list_find _ _) as [[i t]|]; simpl; (split; [lia|done]).
  - cbn [main.app].
    destruct (call_tool_mcp_cases L tool_name args now g)
      as [[e ->]|[(-> & title & description & ->)|(Hc & r & g' & -> & _ & Hr)]].
    + simpl. split; [lia|done].
    + simpl. split; [lia|]. by intros z [= <-].
    + simpl. split; [lia|]. by rewrite decide_False.
  - cbn [main.app]. unfold main.MCPServer.get_resource.
    destruct (main.MCPServer.resources main.mcp !! name) as [res|] eqn:Hres;
      [|simpl; split; [lia|done]].
    destruct (decide (name = "todo_summary")) as [->|Hname].
    + rewrite todo_summary_registered in Hres. injection Hres as <-.
      simpl. split; [lia|done].
    + exfalso. revert Hres. unfold main.mcp, main.MCPServer.resource.
      cbn [main.MCPServer.resources main.MCPServer.tool main.mcp0
           main.MCPServer.__init__ pyfunction.__name__ main.def_todo_summary].
      by rewrite lookup_insert_ne, lookup_empty.
Qed.

(** Ids handed out from a counter that every request leaves or advances
    come out strictly increasing, whatever requests lie in between. *)
Lemma counter_ids_increasing (counter : globals → Z)
    (sel : main.request → main.response → option Z) :
  (∀ req now g,
     (counter g ≤ counter (snd (main.app (H := L) req now g)))%Z
     ∧ ∀ z, sel req (fst (main.app (H := L) req now g)) = Some z →
            z = counter g
            ∧ counter (snd (main.app (H := L) req now g)) = counter g + 1) →
  ∀ reqs g,
    StronglySorted Z.lt (main.ids_of (H := L) sel reqs g)
    ∧ Forall (λ z, (counter g ≤ z)%Z) (main.ids_of (H := L) sel reqs g).
Proof.
  intros Hstep reqs. induction reqs as [|[req now] rest IH]; intros g.
  - split; constructor.
  - rewrite ids_of_cons.
    destruct (Hstep req now g) as [Hle Hsel].
    destruct (IH (snd (main.app req now g))) as [Hsorted Hbound].
    destruct (sel req (fst (main.app req now g))) as [z|]; simpl.
    + destruct (Hsel z eq_refl) as [-> Hnext]. split.
      * constructor; [done|].
        eapply Forall_impl; [exact Hbound|]. simpl. intros; lia.
      * constructor; [lia|].
        eapply Forall_impl; [exact Hbound|]. simpl. intros; lia.
    + split; [done|].
      eapply Forall_impl; [exact Hbound|]. simpl. intros; lia.
Qed.

(** Within one surface the ids behave as C1 asks: across any requests, deletes
    included, the ids the REST creates assign are strictly increasing, and
    so are the ids the tool creates assign. *)
Lemma rest_ids_increasing reqs g :
  StronglySorted Z.lt (main.ids_of (H := L) main.rest_assigned_id reqs g).
Proof.
  by destruct (counter_ids_increasing routes_todo_next_id
                 main.rest_assigned_id rest_counter_step reqs g).
Qed.

Lemma tool_ids_increasing reqs g :
  StronglySorted Z.lt (main.ids_of (H := L) main.tool_assigned_id reqs g).
Proof.
  by destruct (counter_ids_increasing main_next_id
                 main.tool_assigned_id tool_counter_step reqs g).
Qed.

End one_surface.

(** * Further properties of the handlers, the tools and the registry *)

(** ** Requests and the globals *)

Section effects.
Context (L : PyLib).

(** The one registered resource and what asking for any name does. *)
Lemma get_resource_mcp_cases name now g :
  (name ≠ "todo_summary"
   ∧ main.MCPServer.get_resource (main.mcp (H := L)) name now g
     = (Raise {| status_code := 404;
                 detail := "Resource " +:+ name +:+ " not found" |}, g))
  ∨ (name = "todo_summary"
     ∧ main.MCPServer.get_resource (main.mcp (H := L)) name now g
       = (Return {| result := main.json_dumps (H := L)
                                (main.summary (todos_db g)) |}, g)).
Proof.
  destruct (decide (name = "todo_summary")) as [->|Hname].
  - right. split; [done|]. unfold main.MCPServer.get_resource.
    by rewrite todo_summary_registered.
  - left. split; [done|]. unfold main.MCPServer.get_resource.
    assert (Hnone : main.MCPServer.resources (main.mcp (H := L)) !! name = None).
    { unfold main.mcp, main.MCPServer.resource.
      cbn [main.MCPServer.resources main.MCPServer.tool main.mcp0
           main.MCPServer.__init__ pyfunction.__name__ main.def_todo_summary].
      by rewrite lookup_insert_ne, lookup_empty. }
    by rewrite Hnone.
Qed.

(** What a tool request does to the stored list. *)
Lemma call_tool_mcp_store tool_name args now g :
  snd (main.MCPServer.call_tool (main.mcp (H := L)) tool_name args now g) = g
  ∨ (tool_name = "create_todo"
     ∧ ∃ title description,
         main.MCPServer.call_tool (main.mcp (H := L)) tool_name args now g
         = (Return {| result := Dict (main.todo_dict
                        (Todo.mk (main_next_id g) title description
                           (VBool false) now)) |},
            {| todos_db :=
                 todos_db g ++ [Todo.mk (main_next_id g) title description
                                  (VBool false) now];
               routes_todo_next_id := routes_todo_next_id g;
               main_next_id := main_next_id g + 1 |}))
  ∨ (tool_name = "update_todo"
     ∧ ∃ i old new,
         todos_db g !! i = Some old
         ∧ Todo.id new = Todo.id old
         ∧ Todo.created_at new = Todo.created_at old
         ∧ main.MCPServer.call_tool (main.mcp (H := L)) tool_name args now g
           = (Return {| result := Dict (main.todo_dict new) |},
              {| todos_db := <[i := new]> (todos_db g);
                 routes_todo_next_id := routes_todo_next_id g;
                 main_next_id := main_next_id g |}))
  ∨ (tool_name = "delete_todo"
     ∧ ∃ i old,
         todos_db g !! i = Some old
         ∧ main.MCPServer.call_tool (main.mcp (H := L)) tool_name args now g
           = (Return {| result := Dict
                  [("message",
                    VStr ("Todo '" +:+ py_str (Todo.title old)
                            +:+ "' deleted successfully"))] |},
              {| todos_db := delete i (todos_db g);
                 routes_todo_next_id := routes_todo_next_id g;
                 main_next_id := main_next_id g |})).
Proof.
  destruct (decide (tool_name = "create_todo")) as [->|Hcreate].
  { destruct (call_tool_mcp_cases L "create_todo" args now g)
      as [[e ->]|[(_ & title & description & Hc)|(Hne & _)]];
      [by left | right; left; eauto | done]. }
  destruct (decide (tool_name = "update_todo")) as [->|Hupdate].
  { rewrite (call_tool_registered _ _ _ _ _ _ (mcp_update_todo L)).
    cbn [main.Tool.function].
    destruct (call_cases main.def_update_todo args now g)
      as [[msg ->]| ->]; [by left|].
    cbn [pyfunction.body main.def_update_todo].
    destruct (list_find
                (λ todo, int_eq (Todo.id todo)
                           (pyfunction.bound main.def_update_todo args "id")
                         = true) (todos_db g)) as [[i old]|] eqn:Hfind.
    - rewrite (tool_update_found g i old) by done.
      apply list_find_Some in Hfind as (Hi & _ & _).
      right; right; left. split; [done|]. do 3 eexists.
      split_and!; [exact Hi| | |reflexivity]; reflexivity.
    - left. unfold main.update_todo. by rewrite Hfind. }
  destruct (decide (tool_name = "delete_todo")) as [->|Hdelete].
  { rewrite (call_tool_registered _ _ _ _ _ _ (mcp_delete_todo L)).
    cbn [main.Tool.function].
    destruct (call_cases main.def_delete_todo args now g)
      as [[msg ->]| ->]; [by left|].
    cbn [pyfunction.body main.def_delete_todo].
    destruct (list_find
                (λ todo, int_eq (Todo.id todo)
                           (pyfunction.bound main.def_delete_todo args "id")
                         = true) (todos_db g)) as [[i old]|] eqn:Hfind.
    - rewrite (tool_delete_found g i old) by done.
      apply list_find_Some in Hfind as (Hi & _ & _).
      right; right; right. split; [done|]. by do 2 eexists.
    - left. unfold main.delete_todo. by rewrite Hfind. }
  left.
  destruct (decide (tool_name = "list_todos")) as [->|Hlist].
  { rewrite (call_tool_registered _ _ _ _ _ _ (mcp_list_todos L)).
    cbn [main.Tool.function].
    by destruct (call_cases main.def_list_todos args now g)
      as [[msg ->]| ->]. }
  destruct (decide (tool_name = "get_todo")) as [->|Hget].
  { rewrite (call_tool_registered _ _ _ _ _ _ (mcp_get_todo L)).
    cbn [main.Tool.function].
    destruct (call_cases main.def_get_todo args now g)
      as [[msg ->]| ->]; [done|].
    cbn [pyfunction.body main.def_get_todo]. unfold main.get_todo.
    by destruct (list_find _ _) as [[i t]|]. }
  by rewrite call_tool_unregistered by (by apply mcp_tools_other).
Qed.

(** The five things a request can do to the globals. *)
Lemma app_effect req now g :
  snd (main.app (H := L) req now g) = g
  ∨ (∃ new, Todo.id new = routes_todo_next_id g
            ∧ (∃ todo, req = main.POST_todos todo)
            ∧ snd (main.app (H := L) req now g)
              = {| todos_db := todos_db g ++ [new];
                   routes_todo_next_id := routes_todo_next_id g + 1;
                   main_next_id := main_next_id g |})
  ∨ (∃ new, Todo.id new = main_next_id g
            ∧ (∃ args, req = main.POST_mcp_tools "create_todo" args)
            ∧ snd (main.app (H := L) req now g)
              = {| todos_db := todos_db g ++ [new];
                   routes_todo_next_id := routes_todo_next_id g;
                   main_next_id := main_next_id g + 1 |})
  ∨ (∃ i old new,
        todos_db g !! i = Some old
        ∧ Todo.id new = Todo.id old
        ∧ Todo.created_at new = Todo.created_at old
        ∧ snd (main.app (H := L) req now g)
          = {| todos_db := <[i := new]> (todos_db g);
               routes_todo_next_id := routes_todo_next_id g;
               main_next_id := main_next_id g |})
  ∨ (∃ i old,
        todos_db g !! i = Some old
        ∧ snd (main.app (H := L) req now g)
          = {| todos_db := delete i (todos_db g);
               routes_todo_next_id := routes_todo_next_id g;
               main_next_id := main_next_id g |}).
Proof.
  destruct req as [todo| |todo_id|todo_id u|todo_id|tool_name args|name].
  - right; left. eexists. split; [|split; [by eexists|reflexivity]]. done.
  - by left.
  - by left.
  - cbn [main.app].
    destruct (list_find (λ todo, Todo.id todo = todo_id) (todos_db g))
      as [[i old]|] eqn:Hfind.
    + rewrite (rest_update_found g i old) by done.
      apply list_find_Some in Hfind as (Hi & _ & _).
      right; right; right; left. do 3 eexists.
      split_and!; [exact Hi| | |reflexivity]; reflexivity.
    + left. unfold routes.todo.update_todo. by rewrite Hfind.
  - cbn [main.app].
    destruct (list_find (λ todo, Todo.id todo = todo_id) (todos_db g))
      as [[i old]|] eqn:Hfind.
    + rewrite (rest_delete_found g i old) by done.
      apply list_find_Some in Hfind as (Hi & _ & _).
      right; right; right; right. by do 2 eexists.
    + left. unfold routes.todo.delete_todo. by rewrite Hfind.
  - cbn [main.app].
    destruct (call_tool_mcp_store tool_name args now g)
      as [Hsame|[(-> & title & description & Hc)
                |[(-> & i & old & new & Hi & Hid & Hat & Hc)
                 |(-> & i & old & Hi & Hc)]]].
    + left. by destruct (main.MCPServer.call_tool _ _ _ _ _).
    + right; right; left. rewrite Hc. eexists.
      split; [|split; [by eexists|reflexivity]]. done.
    + right; right; right; left. rewrite Hc. by exists i, old, new.
    + right; right; right; right. rewrite Hc. by exists i, old.
  - cbn [main.app]. left.
    by destruct (get_resource_mcp_cases name now g) as [[_ ->]|[_ ->]].
Qed.

End effects.

(** X1: across any sequence of requests from any globals, the ids the REST
    creates assign are strictly increasing and not below the router's
    counter at the start, and the ids the [create_todo] tool assigns are
    strictly increasing and not below [main]'s counter at the start. *)
Theorem ids_increase_within_surface (L : PyLib)
    (reqs : list (main.request * datetime.t)) (g : globals) :
  (StronglySorted Z.lt (main.ids_of (H := L) main.rest_assigned_id reqs g)
   ∧ Forall (λ z, (routes_todo_next_id g ≤ z)%Z)
       (main.ids_of (H := L) main.rest_assigned_id reqs g))
  ∧ (StronglySorted Z.lt (main.ids_of (H := L) main.tool_assigned_id reqs g)
     ∧ Forall (λ z, (main_next_id g ≤ z)%Z)
         (main.ids_of (H := L) main.tool_assigned_id reqs g)).
Proof.
  split.
  - apply (counter_ids_increasing L routes_todo_next_id
             main.rest_assigned_id (rest_counter_step L)).
  - apply (counter_ids_increasing L main_next_id
             main.tool_assigned_id (tool_counter_step L)).
Qed.

(** X2: whatever the request, the globals after it are the globals before
    it, or the list with one record appended that carries the value of the
    requested surface's counter while that counter advances by one, or the
    list with one record replaced in place by a record of the same id and
    creation time, or the list with one record removed; nothing else
    changes and no other record moves. *)
Theorem request_effects (L : PyLib) (req : main.request) (now : datetime.t)
    (g : globals) :
  snd (main.app (H := L) req now g) = g
  ∨ (∃ new, Todo.id new = routes_todo_next_id g
            ∧ (∃ todo, req = main.POST_todos todo)
            ∧ snd (main.app (H := L) req now g)
              = {| todos_db := todos_db g ++ [new];
                   routes_todo_next_id := routes_todo_next_id g + 1;
                   main_next_id := main_next_id g |})
  ∨ (∃ new, Todo.id new = main_next_id g
            ∧ (∃ args, req = main.POST_mcp_tools "create_todo" args)
            ∧ snd (main.app (H := L) req now g)
              = {| todos_db := todos_db g ++ [new];
                   routes_todo_next_id := routes_todo_next_id g;
                   main_next_id := main_next_id g + 1 |})
  ∨ (∃ i old new,
        todos_db g !! i = Some old
        ∧ Todo.id new = Todo.id old
        ∧ Todo.created_at new = Todo.created_at old
        ∧ snd (main.app (H := L) req now g)
          = {| todos_db := <[i := new]> (todos_db g);
               routes_todo_next_id := routes_todo_next_id g;
               main_next_id := main_next_id g |})
  ∨ (∃ i old,
        todos_db g !! i = Some old
        ∧ snd (main.app (H := L) req now g)
          = {| todos_db := delete i (todos_db g);
               routes_todo_next_id := routes_todo_next_id g;
               main_next_id := main_next_id g |}).
Proof. apply app_effect. Qed.

(** X3: a request that is answered with an error, on either surface and
    for whatever reason (unknown id, unknown tool or resource, keywords that
    do not fit, a rejected title), leaves the globals as they were: no
    record is written and no id is used up. *)
Theorem failed_request_leaves_globals (L : PyLib) (req : main.request)
    (now : datetime.t) (g g' : globals) (e : HTTPException) :
  main.app (H := L) req now g = (main.Failed e, g') → g' = g.
Proof.
  destruct req as [todo| |todo_id|todo_id u|todo_id|tool_name args|name];
    cbn [main.app].
  - intros [=].
  - intros [=].
  - by intros [= _ <-].
  - unfold routes.todo.update_todo.
    destruct (list_find _ _) as [[i old]|]; simpl; [intros [=]|].
    by intros [= _ <-].
  - unfold routes.todo.delete_todo.
    destruct (list_find _ _) as [[i old]|]; simpl; [intros [=]|].
    by intros [= _ <-].
  - destruct (call_tool_mcp_cases L tool_name args now g)
      as [[e' ->]|[(_ & title & description & ->)|(_ & r & g0 & -> & _)]];
      simpl; [by intros [= _ <-] | intros [=] | intros [=]].
  - destruct (get_resource_mcp_cases L name now g) as [[_ ->]|[_ ->]];
      simpl; [by intros [= _ <-] | intros [=]].
Qed.

Lemma failed_request_leaves_globals_witness :
  let g := {| todos_db := [Todo.mk 1 (VStr "buy milk") VNone (VBool false) noon];
              routes_todo_next_id := 2; main_next_id := 1 |} in
  main.app (H := sample_lib)
    (main.POST_mcp_tools "update_todo"
       [("id", VInt 7); ("completed", VBool true)]) noon g
  = (main.Failed {| status_code := 500;
                    detail := "Todo with ID 7 not found" |}, g)
  ∧ g = g.
Proof.
  intros g.
  assert (Hfailed : main.app (H := sample_lib)
            (main.POST_mcp_tools "update_todo"
               [("id", VInt 7); ("completed", VBool true)]) noon g
          = (main.Failed {| status_code := 500;
                            detail := "Todo with ID 7 not found" |}, g))
    by (vm_compute; reflexivity).
  split; [exact Hfailed|].
  exact (failed_request_leaves_globals sample_lib _ _ _ _ _ Hfailed).
Defined.

(** X4: the reading requests never change the globals, whatever they
    answer: listing and fetching on the REST surface, the [list_todos] and
    [get_todo] tools with any arguments, and any resource request. *)
Theorem reads_leave_globals (L : PyLib) (now : datetime.t) (g : globals)
    (todo_id : Z) (args : kwargs) (name : string) :
  snd (main.app (H := L) main.GET_todos now g) = g
  ∧ snd (main.app (H := L) (main.GET_todos_id todo_id) now g) = g
  ∧ snd (main.app (H := L) (main.POST_mcp_tools "list_todos" args) now g) = g
  ∧ snd (main.app (H := L) (main.POST_mcp_tools "get_todo" args) now g) = g
  ∧ snd (main.app (H := L) (main.GET_mcp_resources name) now g) = g.
Proof.
  split_and!; try done.
  - destruct (call_tool_mcp_store L "list_todos" args now g)
      as [Hsame|[(Hn & _)|[(Hn & _)|(Hn & _)]]]; try discriminate Hn.
    cbn [main.app]. by destruct (main.MCPServer.call_tool _ _ _ _ _).
  - destruct (call_tool_mcp_store L "get_todo" args now g)
      as [Hsame|[(Hn & _)|[(Hn & _)|(Hn & _)]]]; try discriminate Hn.
    cbn [main.app]. by destruct (main.MCPServer.call_tool _ _ _ _ _).
  - cbn [main.app].
    by destruct (get_resource_mcp_cases L name now g) as [[_ ->]|[_ ->]].
Qed.

(** ** What an update keeps *)

Lemma insert_same_projection {A B} (f : A → B) (l : list A) i old new :
  l !! i = Some old → f new = f old → f <$> <[i := new]> l = f <$> l.
Proof.
  intros Hi Hf. rewrite list_fmap_insert, Hf.
  apply list_insert_id. by rewrite list_lookup_fmap, Hi.
Qed.

(** X5: an update request, on either surface and with any body or
    arguments, successful or not, keeps the sequence of ids and the
    sequence of creation times of the stored records, hence their number
    and order, and keeps both counters. *)
Theorem update_keeps_ids (L : PyLib) (todo_id : Z) (u : TodoUpdate.t)
    (args : kwargs) (now : datetime.t) (g : globals) :
  let g_rest := snd (main.app (H := L) (main.PUT_todos_id todo_id u) now g) in
  let g_tool :=
    snd (main.app (H := L) (main.POST_mcp_tools "update_todo" args) now g) in
  (Todo.id <$> todos_db g_rest = Todo.id <$> todos_db g
   ∧ Todo.created_at <$> todos_db g_rest = Todo.created_at <$> todos_db g
   ∧ length (todos_db g_rest) = length (todos_db g)
   ∧ routes_todo_next_id g_rest = routes_todo_next_id g
   ∧ main_next_id g_rest = main_next_id g)
  ∧ (Todo.id <$> todos_db g_tool = Todo.id <$> todos_db g
     ∧ Todo.created_at <$> todos_db g_tool = Todo.created_at <$> todos_db g
     ∧ length (todos_db g_tool) = length (todos_db g)
     ∧ routes_todo_next_id g_tool = routes_todo_next_id g
     ∧ main_next_id g_tool = main_next_id g).
Proof.
  intros g_rest g_tool. split.
  - subst g_rest. cbn [main.app].
    destruct (list_find (λ todo, Todo.id todo = todo_id) (todos_db g))
      as [[i old]|] eqn:Hfind.
    + rewrite (rest_update_found g i old) by done.
      apply list_find_Some in Hfind as (Hi & _ & _). cbn.
      split_and!; try done.
      * by apply insert_same_projection with old.
      * by apply insert_same_projection with old.
      * apply length_insert.
    + unfold routes.todo.update_todo. by rewrite Hfind.
  - subst g_tool. cbn [main.app].
    destruct (call_tool_mcp_store L "update_todo" args now g)
      as [Hsame|[(Hn & _)|[(_ & i & old & new & Hi & Hid & Hat & Hc)|(Hn & _)]]];
      try discriminate Hn.
    + destruct (main.MCPServer.call_tool _ _ _ _ _) as [o g0].
      simpl in Hsame. subst g0. by destruct o.
    + rewrite Hc. cbn. split_and!; try done.
      * by apply insert_same_projection with old.
      * by apply insert_same_projection with old.
      * apply length_insert.
Qed.

(** ** One surface creating *)

Lemma StronglySorted_delete {A} (R : A → A → Prop) (l : list A) i :
  StronglySorted R l → StronglySorted R (delete i l).
Proof.
  intros Hl. revert i. induction Hl as [|x l Hl IH Hx]; intros [|i]; simpl.
  - constructor.
  - constructor.
  - done.
  - constructor; [apply IH|]. by apply Forall_delete.
Qed.

Lemma StronglySorted_lt_NoDup (l : list Z) :
  StronglySorted Z.lt l → NoDup l.
Proof.
  induction 1 as [|x l Hl IH Hx]; constructor; [|done].
  intros Hin. rewrite Forall_forall in Hx. specialize (Hx _ Hin). lia.
Qed.

Lemma sorted_below_snoc (l : list Z) (c : Z) :
  StronglySorted Z.lt l → Forall (λ z, (z < c)%Z) l →
  StronglySorted Z.lt (l ++ [c]) ∧ Forall (λ z, (z < c + 1)%Z) (l ++ [c]).
Proof.
  intros Hl Hc. split.
  - apply StronglySorted_app_2; [|done|repeat constructor].
    intros x y Hx Hy. apply list_elem_of_singleton in Hy as ->.
    rewrite Forall_forall in Hc. by apply Hc.
  - apply Forall_app. split; [|repeat constructor; lia].
    eapply Forall_impl; [exact Hc|]. simpl. intros; lia.
Qed.

Section single_surface.
Context (L : PyLib).

Lemma run_cons req now rest g :
  snd (main.run (H := L) ((req, now) :: rest) g)
  = snd (main.run (H := L) rest (snd (main.app (H := L) req now g))).
Proof.
  cbn [main.run]. destruct (main.app req now g) as [r g']. cbn [snd].
  by destruct (main.run rest g') as [rs g''].
Qed.

Lemma rest_sorted_step req now g :
  (∀ args, req ≠ main.POST_mcp_tools "create_todo" args) →
  StronglySorted Z.lt (Todo.id <$> todos_db g) →
  Forall (λ z, (z < routes_todo_next_id g)%Z) (Todo.id <$> todos_db g) →
  StronglySorted Z.lt
    (Todo.id <$> todos_db (snd (main.app (H := L) req now g)))
  ∧ Forall (λ z, (z < routes_todo_next_id
                        (snd (main.app (H := L) req now g)))%Z)
      (Todo.id <$> todos_db (snd (main.app (H := L) req now g))).
Proof.
  intros Hreq Hsorted Hbelow.
  destruct (app_effect L req now g)
    as [->|[(new & Hid & _ & ->)|[(new & _ & [args ->] & _)
       |[(i & old & new & Hi & Hid & _ & ->)|(i & old & Hi & ->)]]]];
    cbn [todos_db routes_todo_next_id].
  - done.
  - rewrite fmap_app. cbn. rewrite Hid. by apply sorted_below_snoc.
  - by destruct (Hreq args).
  - by rewrite (insert_same_projection Todo.id _ i old new).
  - rewrite list_fmap_delete. split.
    + by apply StronglySorted_delete.
    + by apply Forall_delete.
Qed.

Lemma tool_sorted_step req now g :
  (∀ todo, req ≠ main.POST_todos todo) →
  StronglySorted Z.lt (Todo.id <$> todos_db g) →
  Forall (λ z, (z < main_next_id g)%Z) (Todo.id <$> todos_db g) →
  StronglySorted Z.lt
    (Todo.id <$> todos_db (snd (main.app (H := L) req now g)))
  ∧ Forall (λ z, (z < main_next_id (snd (main.app (H := L) req now g)))%Z)
      (Todo.id <$> todos_db (snd (main.app (H := L) req now g))).
Proof.
  intros Hreq Hsorted Hbelow.
  destruct (app_effect L req now g)
    as [->|[(new & _ & [todo ->] & _)|[(new & Hid & _ & ->)
       |[(i & old & new & Hi & Hid & _ & ->)|(i & old & Hi & ->)]]]];
    cbn [todos_db main_next_id].
  - done.
  - by destruct (Hreq todo).
  - rewrite fmap_app. cbn. rewrite Hid. by apply sorted_below_snoc.
  - by rewrite (insert_same_projection Todo.id _ i old new).
  - rewrite list_fmap_delete. split.
    + by apply StronglySorted_delete.
    + by apply Forall_delete.
Qed.

End single_surface.

(** X6: when the stored ids are strictly increasing and below the router's
    counter (as in the initial state) and no request of a sequence calls the
    [create_todo] tool, the stored ids are strictly increasing and below the
    router's counter after the sequence, whatever else it creates, updates
    or deletes; in particular no two stored records share an id. *)
Theorem rest_only_ids_sorted (L : PyLib)
    (reqs : list (main.request * datetime.t)) (g : globals) :
  Forall (λ x, ∀ args, fst x ≠ main.POST_mcp_tools "create_todo" args) reqs →
  StronglySorted Z.lt (Todo.id <$> todos_db g) →
  Forall (λ z, (z < routes_todo_next_id g)%Z) (Todo.id <$> todos_db g) →
  StronglySorted Z.lt
    (Todo.id <$> todos_db (snd (main.run (H := L) reqs g)))
  ∧ Forall (λ z, (z < routes_todo_next_id (snd (main.run (H := L) reqs g)))%Z)
      (Todo.id <$> todos_db (snd (main.run (H := L) reqs g)))
  ∧ NoDup (Todo.id <$> todos_db (snd (main.run (H := L) reqs g))).
Proof.
  intros Hreqs. revert g.
  induction Hreqs as [|[req now] rest Hreq _ IH]; intros g Hsorted Hbelow.
  - simpl. split_and!; try done. by apply StronglySorted_lt_NoDup.
  - rewrite run_cons.
    destruct (rest_sorted_step L req now g Hreq Hsorted Hbelow).
    by apply IH.
Qed.

Lemma rest_only_ids_sorted_witness :
  let reqs :=
    [ (main.POST_todos (TodoCreate.mk "buy milk" None), noon);
      (main.POST_todos (TodoCreate.mk "buy eggs" None), noon);
      (main.DELETE_todos_id 1, noon);
      (main.POST_mcp_tools "update_todo"
         [("id", VInt 2); ("completed", VBool true)], noon);
      (main.POST_todos (TodoCreate.mk "buy tea" None), noon) ] in
  Todo.id <$> todos_db (snd (main.run (H := sample_lib) reqs initial)) = [2; 3]
  ∧ NoDup (Todo.id <$> todos_db (snd (main.run (H := sample_lib) reqs initial))).
Proof.
  intros reqs. split; [vm_compute; reflexivity|].
  destruct (rest_only_ids_sorted sample_lib reqs initial) as (_ & _ & Hnodup).
  - repeat (constructor; [intros args; discriminate|]). constructor.
  - constructor.
  - constructor.
  - exact Hnodup.
Defined.

(** X7: the same with the surfaces exchanged: when the stored ids are
    strictly increasing and below [main]'s counter and no request of a
    sequence is a REST create, they are so after the sequence, and no two
    stored records share an id. *)
Theorem tool_only_ids_sorted (L : PyLib)
    (reqs : list (main.request * datetime.t)) (g : globals) :
  Forall (λ x, ∀ todo, fst x ≠ main.POST_todos todo) reqs →
  StronglySorted Z.lt (Todo.id <$> todos_db g) →
  Forall (λ z, (z < main_next_id g)%Z) (Todo.id <$> todos_db g) →
  StronglySorted Z.lt
    (Todo.id <$> todos_db (snd (main.run (H := L) reqs g)))
  ∧ Forall (λ z, (z < main_next_id (snd (main.run (H := L) reqs g)))%Z)
      (Todo.id <$> todos_db (snd (main.run (H := L) reqs g)))
  ∧ NoDup (Todo.id <$> todos_db (snd (main.run (H := L) reqs g))).
Proof.
  intros Hreqs. revert g.
  induction Hreqs as [|[req now] rest Hreq _ IH]; intros g Hsorted Hbelow.
  - simpl. split_and!; try done. by apply StronglySorted_lt_NoDup.
  - rewrite run_cons.
    destruct (tool_sorted_step L req now g Hreq Hsorted Hbelow).
    by apply IH.
Qed.

Lemma tool_only_ids_sorted_witness :
  let reqs :=
    [ (main.POST_mcp_tools "create_todo" [("title", VStr "buy milk")], noon);
      (main.POST_mcp_tools "create_todo" [("title", VStr "buy eggs")], noon);
      (main.POST_mcp_tools "delete_todo" [("id", VInt 1)], noon);
      (main.POST_mcp_tools "create_todo" [("title", VStr "buy tea")], noon) ] in
  Todo.id <$> todos_db (snd (main.run (H := sample_lib) reqs initial)) = [2; 3]
  ∧ NoDup (Todo.id <$> todos_db (snd (main.run (H := sample_lib) reqs initial))).
Proof.
  intros reqs. split; [vm_compute; reflexivity|].
  destruct (tool_only_ids_sorted sample_lib reqs initial) as (_ & _ & Hnodup).
  - repeat (constructor; [intros todo; discriminate|]). constructor.
  - constructor.
  - constructor.
  - exact Hnodup.
Defined.

(** ** Lookups after a change *)

Section find_after.
Context {A : Type} (P : A → Prop) `{!∀ x, Decision (P x)}.

Lemma list_find_insert_same (l : list A) i old new :
  list_find P l = Some (i, old) → P new →
  list_find P (<[i := new]> l) = Some (i, new).
Proof.
  intros (Hi & _ & Hbefore)%list_find_Some Hnew.
  apply list_find_Some. split_and!; [|done|].
  - apply list_lookup_insert_eq. by eapply lookup_lt_Some.
  - intros j y Hj Hlt. rewrite list_lookup_insert_ne in Hj by lia.
    by eapply Hbefore.
Qed.

Lemma list_find_insert_other (l : list A) i x :
  ¬ P x → (∀ y, l !! i = Some y → ¬ P y) →
  list_find P (<[i := x]> l) = list_find P l.
Proof.
  intros Hx. revert i. induction l as [|a l IH]; intros [|i] Hi; simpl.
  - done.
  - done.
  - specialize (Hi a eq_refl). by rewrite !decide_False.
  - rewrite IH; [done|]. intros y Hy. by apply (Hi y).
Qed.

Lemma list_find_delete_other (l : list A) i :
  (∀ y, l !! i = Some y → ¬ P y) →
  snd <$> list_find P (delete i l) = snd <$> list_find P l.
Proof.
  revert i. induction l as [|a l IH]; intros [|i] Hi; simpl.
  - done.
  - done.
  - specialize (Hi a eq_refl). rewrite decide_False by done.
    by destruct (list_find P l) as [[j y]|].
  - case_decide; [done|].
    specialize (IH i (λ y Hy, Hi y Hy)).
    destruct (list_find P (delete i l)) as [[j y]|],
      (list_find P l) as [[j' y']|]; simpl in *; congruence.
Qed.

End find_after.

Lemma rest_get_by_find (todo_id : Z) (g : globals) :
  routes.todo.get_todo todo_id g
  = match snd <$> list_find (λ todo, Todo.id todo = todo_id) (todos_db g) with
    | Some todo => Return todo
    | None => Raise routes.todo.not_found
    end.
Proof.
  unfold routes.todo.get_todo.
  by destruct (list_find _ _) as [[i t]|].
Qed.

Lemma tool_get_by_find (id : value) (g : globals) :
  main.get_todo id g
  = match snd <$> list_find (λ todo, int_eq (Todo.id todo) id = true)
                    (todos_db g) with
    | Some todo => (Return (Dict (main.todo_dict todo)), g)
    | None => (Raise (main.not_found id), g)
    end.
Proof.
  unfold main.get_todo.
  by destruct (list_find _ _) as [[i t]|].
Qed.

Lemma Todo_copy_idempotent (update : gmap string value) (todo : Todo.t) :
  Todo.copy update (Todo.copy update todo) = Todo.copy update todo.
Proof.
  unfold Todo.copy. simpl.
  by destruct (update !! "title"), (update !! "description"),
    (update !! "completed").
Qed.

(** X8: a successful update followed by a fetch of the same id returns the
    record the update returned, on the REST surface and on the tool
    surface, also when several records share the id. *)
Theorem update_then_get (g : globals) (todo_id : Z) (u : TodoUpdate.t)
    (id title description completed : value) :
  (∀ updated g',
     routes.todo.update_todo todo_id u g = (Return updated, g') →
     routes.todo.get_todo todo_id g' = Return updated)
  ∧ (∀ r g',
       main.update_todo id title description completed g = (Return r, g') →
       main.get_todo id g' = (Return r, g')).
Proof.
  split.
  - intros updated g'. unfold routes.todo.update_todo.
    destruct (list_find (λ todo, Todo.id todo = todo_id) (todos_db g))
      as [[i old]|] eqn:Hfind; [|done].
    intros [= <- <-]. unfold routes.todo.get_todo. cbn [todos_db].
    rewrite (list_find_insert_same _ _ i old); [done..|].
    by apply list_find_Some in Hfind as (_ & <- & _).
  - intros r g'.
    destruct (list_find (λ todo, int_eq (Todo.id todo) id = true) (todos_db g))
      as [[i old]|] eqn:Hfind.
    + rewrite (tool_update_found g i old) by done. intros [= <- <-].
      unfold main.get_todo. cbn [todos_db].
      rewrite (list_find_insert_same _ _ i old); [done..|].
      by apply list_find_Some in Hfind as (_ & Hid & _).
    + unfold main.update_todo. by rewrite Hfind.
Qed.

Lemma update_then_get_witness :
  let old := Todo.mk 1 (VStr "buy milk") (VStr "2 litres") (VBool false) noon in
  let g := {| todos_db := [old];
              routes_todo_next_id := 2; main_next_id := 1 |} in
  let u := TodoUpdate.mk (Some "buy oat milk") None None {["title"]} in
  routes.todo.get_todo 1 (snd (routes.todo.update_todo 1 u g))
  = Return (Todo.mk 1 (VStr "buy oat milk") (VStr "2 litres") (VBool false)
              noon).
Proof.
  intros old g u.
  destruct (update_then_get g 1 u VNone VNone VNone VNone) as [Hrest _].
  apply (Hrest _ (snd (routes.todo.update_todo 1 u g))).
  vm_compute. reflexivity.
Defined.

(** X9: an update is idempotent: sending the same update a second time
    gives the answer and the globals the first one gave, on the REST
    surface and on the tool surface. *)
Theorem update_idempotent (g : globals) (todo_id : Z) (u : TodoUpdate.t)
    (id title description completed : value) :
  routes.todo.update_todo todo_id u (snd (routes.todo.update_todo todo_id u g))
  = routes.todo.update_todo todo_id u g
  ∧ main.update_todo id title description completed
      (snd (main.update_todo id title description completed g))
    = main.update_todo id title description completed g.
Proof.
  split.
  - destruct (list_find (λ todo, Todo.id todo = todo_id) (todos_db g))
      as [[i old]|] eqn:Hfind.
    + rewrite (rest_update_found g i old) by done. cbn [snd].
      erewrite rest_update_found; last first.
      { cbn [todos_db]. apply (list_find_insert_same _ _ i old); [done|].
        by apply list_find_Some in Hfind as (_ & Hid & _). }
      cbn [todos_db routes_todo_next_id main_next_id].
      by rewrite Todo_copy_idempotent, list_insert_insert_eq.
    + unfold routes.todo.update_todo. rewrite Hfind. cbn [snd].
      by rewrite Hfind.
  - destruct (list_find (λ todo, int_eq (Todo.id todo) id = true) (todos_db g))
      as [[i old]|] eqn:Hfind.
    + rewrite (tool_update_found g i old) by done. cbn [snd].
      erewrite tool_update_found; last first.
      { cbn [todos_db]. apply (list_find_insert_same _ _ i old); [done|].
        by apply list_find_Some in Hfind as (_ & Hid & _). }
      cbn [todos_db routes_todo_next_id main_next_id Todo.id Todo.title
           Todo.description Todo.completed Todo.created_at].
      rewrite list_insert_insert_eq.
      by destruct (is_not_None title), (is_not_None description),
        (is_not_None completed).
    + unfold main.update_todo. rewrite Hfind. cbn [snd].
      by rewrite Hfind.
Qed.

(** X10: a create never changes what an id that resolved before resolves
    to: a record a fetch returned is still what the fetch returns after a
    REST create and after a call of the [create_todo] tool, whatever id the
    new record got. *)
Theorem create_keeps_lookups (L : PyLib) (g : globals) (todo_id : Z)
    (found : Todo.t) (todo : TodoCreate.t) (title description : value)
    (now : datetime.t) :
  routes.todo.get_todo todo_id g = Return found →
  routes.todo.get_todo todo_id (snd (routes.todo.create_todo todo now g))
  = Return found
  ∧ routes.todo.get_todo todo_id
      (snd (main.create_todo (H := L) title description now g))
    = Return found
  ∧ main.get_todo (VInt todo_id)
      (snd (main.create_todo (H := L) title description now g))
    = (Return (Dict (main.todo_dict found)),
       snd (main.create_todo (H := L) title description now g)).
Proof.
  unfold routes.todo.get_todo at 1.
  destruct (list_find (λ t, Todo.id t = todo_id) (todos_db g))
    as [[i t]|] eqn:Hfind; [|done].
  intros [= ->].
  assert (Happ : ∀ new,
    list_find (λ t, Todo.id t = todo_id) (todos_db g ++ [new])
    = Some (i, found)) by (intros new; by apply list_find_app_l).
  split_and!.
  - unfold routes.todo.get_todo. cbn [routes.todo.create_todo snd todos_db].
    by rewrite Happ.
  - unfold routes.todo.get_todo, main.create_todo.
    destruct (Todo.validation_errors title description);
      cbn [snd todos_db]; by rewrite ?Happ, ?Hfind.
  - unfold main.get_todo, main.create_todo. rewrite find_int.
    destruct (Todo.validation_errors title description);
      cbn [snd todos_db]; by rewrite ?Happ, ?Hfind.
Qed.

Lemma create_keeps_lookups_witness :
  let first := Todo.mk 1 (VStr "buy milk") VNone (VBool false) noon in
  let g := {| todos_db := [first];
              routes_todo_next_id := 1; main_next_id := 1 |} in
  routes.todo.get_todo 1
    (snd (routes.todo.create_todo (TodoCreate.mk "buy eggs" None) noon g))
  = Return first.
Proof.
  intros first g.
  destruct (create_keeps_lookups sample_lib g 1 first
              (TodoCreate.mk "buy eggs" None) (VStr "buy tea") VNone noon)
    as [Hrest _].
  - reflexivity.
  - exact Hrest.
Defined.

(** X11: updating or deleting by one id does not change what a fetch of a
    different id answers, on the REST surface and through the tools called
    with integer ids. *)
Theorem other_id_untouched (g : globals) (a b : Z) (u : TodoUpdate.t)
    (title description completed : value) :
  a ≠ b →
  routes.todo.get_todo b (snd (routes.todo.update_todo a u g))
  = routes.todo.get_todo b g
  ∧ routes.todo.get_todo b (snd (routes.todo.delete_todo a g))
    = routes.todo.get_todo b g
  ∧ routes.todo.get_todo b
      (snd (main.update_todo (VInt a) title description completed g))
    = routes.todo.get_todo b g
  ∧ routes.todo.get_todo b (snd (main.delete_todo (VInt a) g))
    = routes.todo.get_todo b g.
Proof.
  intros Hab.
  assert (Hrest : ∀ i old new, 
    list_find (λ todo, Todo.id todo = a) (todos_db g) = Some (i, old) →
    Todo.id new = a →
    list_find (λ todo, Todo.id todo = b) (<[i := new]> (todos_db g))
    = list_find (λ todo, Todo.id todo = b) (todos_db g)).
  { intros i old new (Hi & Hid & _)%list_find_Some Hnew.
    apply list_find_insert_other; [congruence|].
    intros y Hy. rewrite Hi in Hy. injection Hy as <-. congruence. }
  assert (Hdel : ∀ i old,
    list_find (λ todo, Todo.id todo = a) (todos_db g) = Some (i, old) →
    snd <$> list_find (λ todo, Todo.id todo = b) (delete i (todos_db g))
    = snd <$> list_find (λ todo, Todo.id todo = b) (todos_db g)).
  { intros i old (Hi & Hid & _)%list_find_Some.
    apply list_find_delete_other.
    intros y Hy. rewrite Hi in Hy. injection Hy as <-. congruence. }
  destruct (list_find (λ todo, Todo.id todo = a) (todos_db g))
    as [[i old]|] eqn:Hfind.
  - split_and!.
    + rewrite (rest_update_found g i old) by done.
      unfold routes.todo.get_todo. cbn [snd todos_db].
      rewrite (Hrest i old); [done..|].
      simpl. by apply list_find_Some in Hfind as (_ & Hid & _).
    + rewrite (rest_delete_found g i old) by done.
      rewrite !rest_get_by_find. cbn [snd todos_db].
      by rewrite (Hdel i old).
    + rewrite (tool_update_found g i old) by (by rewrite find_int).
      unfold routes.todo.get_todo. cbn [snd todos_db].
      rewrite (Hrest i old); [done..|].
      simpl. by apply list_find_Some in Hfind as (_ & Hid & _).
    + rewrite (tool_delete_found g i old) by (by rewrite find_int).
      rewrite !rest_get_by_find. cbn [snd todos_db].
      by rewrite (Hdel i old).
  - unfold routes.todo.update_todo, routes.todo.delete_todo,
      main.update_todo, main.delete_todo.
    by rewrite !find_int, !Hfind.
Qed.

Lemma other_id_untouched_witness :
  let milk := Todo.mk 1 (VStr "buy milk") VNone (VBool false) noon in
  let eggs := Todo.mk 2 (VStr "buy eggs") VNone (VBool false) noon in
  let g := {| todos_db := [milk; eggs];
              routes_todo_next_id := 3; main_next_id := 1 |} in
  routes.todo.get_todo 2 (snd (routes.todo.delete_todo 1 g)) = Return eggs.
Proof.
  intros milk eggs g.
  destruct (other_id_untouched g 1 2 (TodoUpdate.mk None None None ∅)
              VNone VNone VNone) as (_ & Hdelete & _).
  - discriminate.
  - rewrite Hdelete. reflexivity.
Defined.

(** ** Create then fetch, delete then fetch *)

(** X12: when every stored id is below the counter of the surface that
    creates (which holds as long as that surface alone creates), the record
    a create returns is the record a fetch of its id returns right after:
    for the REST create with the REST fetch, and for the [create_todo] tool
    with the [get_todo] tool, whose dict carries the counter's value as
    [id]. *)
Theorem create_then_get_below_counter (L : PyLib) (g : globals)
    (todo : TodoCreate.t) (title description : value) (now : datetime.t) :
  (Forall (λ t, (Todo.id t < routes_todo_next_id g)%Z) (todos_db g) →
   routes.todo.get_todo (Todo.id (fst (routes.todo.create_todo todo now g)))
     (snd (routes.todo.create_todo todo now g))
   = Return (fst (routes.todo.create_todo todo now g)))
  ∧ (Forall (λ t, (Todo.id t < main_next_id g)%Z) (todos_db g) →
     ∀ r g',
       main.create_todo (H := L) title description now g = (Return r, g') →
       main.get_todo (VInt (main_next_id g)) g' = (Return r, g')
       ∧ kw_get "id" (match r with Dict d => d | List _ => [] end)
         = Some (VInt (main_next_id g))).
Proof.
  split.
  - intros Hrest. apply rest_create_then_get.
    eapply Forall_impl; [exact Hrest|]. simpl. intros; lia.
  - intros Htool r g' Hcreate. split.
    + eapply tool_create_then_get; [|exact Hcreate].
      eapply Forall_impl; [exact Htool|]. simpl. intros; lia.
    + revert Hcreate. unfold main.create_todo.
      destruct (Todo.validation_errors title description); [|done].
      by intros [= <- _].
Qed.

Lemma create_then_get_below_counter_witness :
  let g := {| todos_db := [Todo.mk 1 (VStr "buy milk") VNone (VBool false) noon];
              routes_todo_next_id := 2; main_next_id := 2 |} in
  routes.todo.get_todo 2
    (snd (routes.todo.create_todo (TodoCreate.mk "buy eggs" None) noon g))
  = Return (Todo.mk 2 (VStr "buy eggs") VNone (VBool false) noon).
Proof.
  intros g.
  destruct (create_then_get_below_counter sample_lib g
              (TodoCreate.mk "buy eggs" None) (VStr "buy tea") VNone noon)
    as [Hrest _].
  apply Hrest. repeat constructor.
Defined.

Lemma filter_all {A} (P : A → Prop) `{!∀ x, Decision (P x)} (l : list A) :
  Forall P l → filter P l = l.
Proof.
  induction 1 as [|x l Hx _ IH]; [done|].
  by rewrite filter_cons, decide_True, IH.
Qed.

Lemma delete_first_is_filter (db : list Todo.t) (todo_id : Z) i t :
  NoDup (Todo.id <$> db) →
  list_find (λ todo, Todo.id todo = todo_id) db = Some (i, t) →
  delete i db = filter (λ todo, Todo.id todo ≠ todo_id) db.
Proof.
  revert i. induction db as [|a db IH]; intros i Hnd Hfind; [done|].
  rewrite fmap_cons, NoDup_cons in Hnd. destruct Hnd as [Hfresh Hnd].
  simpl in Hfind. rewrite filter_cons. case_decide as Ha.
  - injection Hfind as <- <-. rewrite decide_False by (by intros []).
    simpl. symmetry. apply filter_all. apply Forall_forall.
    intros x Hx Hid. apply Hfresh. rewrite Ha, <- Hid.
    by apply list_elem_of_fmap_2.
  - rewrite decide_True by done.
    destruct (list_find _ db) as [[j y]|] eqn:Hdb; [|done].
    injection Hfind as <- <-. simpl. f_equal. by eapply IH.
Qed.

(** X13: when the stored ids are pairwise distinct, a successful delete
    removes every record of that id and nothing else, in the order the
    records had; a fetch of that id and a second delete are then answered
    404, and the second delete leaves the globals as the first left them. *)
Theorem delete_then_absent (g g' : globals) (todo_id : Z) (message : string) :
  NoDup (Todo.id <$> todos_db g) →
  routes.todo.delete_todo todo_id g = (Return message, g') →
  todos_db g' = filter (λ todo, Todo.id todo ≠ todo_id) (todos_db g)
  ∧ S (length (todos_db g')) = length (todos_db g)
  ∧ routes.todo.get_todo todo_id g' = Raise routes.todo.not_found
  ∧ routes.todo.delete_todo todo_id g' = (Raise routes.todo.not_found, g')
  ∧ main.delete_todo (VInt todo_id) g'
    = (Raise (main.not_found (VInt todo_id)), g').
Proof.
  intros Hnd. unfold routes.todo.delete_todo at 1.
  destruct (list_find (λ todo, Todo.id todo = todo_id) (todos_db g))
    as [[i t]|] eqn:Hfind; [|done].
  intros [= _ <-]. cbn [todos_db].
  pose proof (delete_first_is_filter _ _ _ _ Hnd Hfind) as Hfilter.
  assert (Habsent :
    list_find (λ todo, Todo.id todo = todo_id) (delete i (todos_db g)) = None).
  { apply list_find_None. rewrite Hfilter. apply Forall_forall.
    by intros x [Hx _]%list_elem_of_filter. }
  split_and!.
  - done.
  - rewrite length_delete; [|by apply list_find_Some in Hfind as (Hi & _)].
    apply list_find_Some in Hfind as (Hi%lookup_lt_Some & _). lia.
  - unfold routes.todo.get_todo. cbn [todos_db]. by rewrite Habsent.
  - unfold routes.todo.delete_todo. cbn [todos_db]. by rewrite Habsent.
  - unfold main.delete_todo. rewrite find_int. cbn [todos_db].
    by rewrite Habsent.
Qed.

Lemma delete_then_absent_witness :
  let milk := Todo.mk 1 (VStr "buy milk") VNone (VBool false) noon in
  let eggs := Todo.mk 2 (VStr "buy eggs") VNone (VBool false) noon in
  let g := {| todos_db := [milk; eggs];
              routes_todo_next_id := 3; main_next_id := 1 |} in
  let g' := {| todos_db := [eggs];
               routes_todo_next_id := 3; main_next_id := 1 |} in
  routes.todo.delete_todo 1 g
  = (Return "Todo 'buy milk' deleted successfully", g')
  ∧ routes.todo.delete_todo 1 g' = (Raise routes.todo.not_found, g').
Proof.
  intros milk eggs g g'.
  assert (Hfirst : routes.todo.delete_todo 1 g
                   = (Return "Todo 'buy milk' deleted successfully", g'))
    by (vm_compute; reflexivity).
  split; [exact Hfirst|].
  destruct (delete_then_absent g g' 1
              "Todo 'buy milk' deleted successfully")
    as (_ & _ & _ & Hsecond & _).
  - apply (bool_decide_unpack _). vm_compute. exact I.
  - exact Hfirst.
  - exact Hsecond.
Defined.

(** ** A sequence of creates *)

Lemma seqZ_succ (m : Z) (n : nat) :
  seqZ m (Z.of_nat (S n)) = m :: seqZ (m + 1) (Z.of_nat n).
Proof.
  rewrite seqZ_cons by lia. f_equal.
  by replace (Z.pred (Z.of_nat (S n))) with (Z.of_nat n) by lia.
Qed.

(** X14: REST creates served one after the other from any globals are
    numbered consecutively from the router's counter; each is answered
    with its record, not completed and stamped with the clock reading of
    its request; the records are appended in the order of the requests;
    the counter ends advanced by their number, and listing then returns
    the old list followed by the new records. *)
Theorem creates_number_consecutively (L : PyLib)
    (todos : list (TodoCreate.t * datetime.t)) (g : globals) (now : datetime.t) :
  let reqs := (λ x, (main.POST_todos (fst x), snd x)) <$> todos in
  let created :=
    zip_with (λ k x, Todo.mk k (VStr (TodoCreate.title (fst x)))
                       (of_option_str (TodoCreate.description (fst x)))
                       (VBool false) (snd x))
      (seqZ (routes_todo_next_id g) (Z.of_nat (length todos))) todos in
  let g' :=
    {| todos_db := todos_db g ++ created;
       routes_todo_next_id := routes_todo_next_id g + Z.of_nat (length todos);
       main_next_id := main_next_id g |} in
  main.run (H := L) reqs g = (main.Created <$> created, g')
  ∧ main.assigned_ids (H := L) reqs g
    = seqZ (routes_todo_next_id g) (Z.of_nat (length todos))
  ∧ main.app (H := L) main.GET_todos now g'
    = (main.OkTodos (todos_db g ++ created), g').
Proof.
  intros reqs created g'.
  assert (Hrun : main.run (H := L) reqs g = (main.Created <$> created, g')).
  { subst reqs created g'. revert g.
    induction todos as [|[todo t] todos IH]; intros g.
    - simpl. rewrite app_nil_r, Z.add_0_r. by rewrite globals_eta.
    - rewrite fmap_cons. cbn [main.run main.app routes.todo.create_todo fst snd].
      rewrite IH. cbn [todos_db routes_todo_next_id main_next_id].
      rewrite (seqZ_succ _ (length todos)). cbn [zip_with fmap list_fmap].
      rewrite <- app_assoc. cbn [app length].
      by replace (routes_todo_next_id g + 1 + Z.of_nat (length todos))
        with (routes_todo_next_id g + Z.of_nat (S (length todos))) by lia. }
  split_and!; [done| |done].
  unfold main.assigned_ids, main.ids_of. rewrite Hrun. cbn [fst].
  subst reqs created. clear Hrun g'.
  generalize (routes_todo_next_id g). clear g.
  induction todos as [|[todo t] todos IH]; intros c; [done|].
  rewrite (seqZ_succ _ (length todos)). cbn. f_equal. apply IH.
Qed.

(** ** The tools beside the REST handlers *)

(** X15: the tools reading and deleting with an integer id act on the
    record the REST handlers act on: [get_todo] returns the dict of the
    record the REST fetch returns and fails when that fails, [delete_todo]
    leaves the globals the REST delete leaves and words the same message,
    and [list_todos] returns the dicts of the records the REST listing
    returns, in that order. *)
Theorem tools_agree_with_rest (g : globals) (todo_id : Z) :
  main.get_todo (VInt todo_id) g
  = match routes.todo.get_todo todo_id g with
    | Return todo => (Return (Dict (main.todo_dict todo)), g)
    | Raise _ => (Raise (main.not_found (VInt todo_id)), g)
    end
  ∧ main.delete_todo (VInt todo_id) g
    = match routes.todo.delete_todo todo_id g with
      | (Return message, g') =>
          (Return (Dict [("message", VStr message)]), g')
      | (Raise _, g') => (Raise (main.not_found (VInt todo_id)), g')
      end
  ∧ main.list_todos g
    = (Return (List (main.todo_dict <$> routes.todo.get_all_todos g)), g).
Proof.
  split_and!.
  - unfold main.get_todo, routes.todo.get_todo. rewrite find_int.
    by destruct (list_find _ _) as [[i t]|].
  - unfold main.delete_todo, routes.todo.delete_todo. rewrite find_int.
    by destruct (list_find _ _) as [[i t]|].
  - done.
Qed.

Lemma find_bool (b : bool) (db : list Todo.t) :
  list_find (λ todo, int_eq (Todo.id todo) (VBool b) = true) db
  = list_find (λ todo, Todo.id todo = if b then 1 else 0) db.
Proof. apply list_find_ext. intros t. simpl. apply Z.eqb_eq. Qed.

Lemma find_never (id : value) (db : list Todo.t) :
  (∀ n, int_eq n id = false) →
  list_find (λ todo, int_eq (Todo.id todo) id = true) db = None.
Proof.
  intros Hnever. apply list_find_None, Forall_forall.
  intros t _. simpl. by rewrite Hnever.
Qed.

(** X16: the tools compare the stored integer with whatever value came as
    [id].  A string or [None] equals no id: get, update and delete then
    fail with the message naming the value and leave the globals alone.
    A boolean is taken as the integer 1 or 0: with [true] the tools act on
    the record of id 1. *)
Theorem tool_id_of_other_type (g : globals) (s : string) (b : bool)
    (title description completed : value) :
  (main.get_todo (VStr s) g
   = (Raise (ValueError ("Todo with ID " +:+ s +:+ " not found")), g)
   ∧ main.update_todo (VStr s) title description completed g
     = (Raise (ValueError ("Todo with ID " +:+ s +:+ " not found")), g)
   ∧ main.delete_todo (VStr s) g
     = (Raise (ValueError ("Todo with ID " +:+ s +:+ " not found")), g))
  ∧ (main.get_todo VNone g
     = (Raise (ValueError "Todo with ID None not found"), g)
     ∧ main.update_todo VNone title description completed g
       = (Raise (ValueError "Todo with ID None not found"), g)
     ∧ main.delete_todo VNone g
       = (Raise (ValueError "Todo with ID None not found"), g))
  ∧ (main.get_todo (VBool b) g
     = match main.get_todo (VInt (if b then 1 else 0)) g with
       | (Return r, g') => (Return r, g')
       | (Raise _, g') => (Raise (main.not_found (VBool b)), g')
       end
     ∧ main.update_todo (VBool b) title description completed g
       = match main.update_todo (VInt (if b then 1 else 0))
                 title description completed g with
         | (Return r, g') => (Return r, g')
         | (Raise _, g') => (Raise (main.not_found (VBool b)), g')
         end
     ∧ main.delete_todo (VBool b) g
       = match main.delete_todo (VInt (if b then 1 else 0)) g with
         | (Return r, g') => (Return r, g')
         | (Raise _, g') => (Raise (main.not_found (VBool b)), g')
         end).
Proof.
  split_and!.
  - unfold main.get_todo. by rewrite find_never.
  - unfold main.update_todo. by rewrite find_never.
  - unfold main.delete_todo. by rewrite find_never.
  - unfold main.get_todo. by rewrite find_never.
  - unfold main.update_todo. by rewrite find_never.
  - unfold main.delete_todo. by rewrite find_never.
  - unfold main.get_todo. rewrite find_bool, find_int.
    by destruct (list_find _ _) as [[i t]|].
  - unfold main.update_todo. rewrite find_bool, find_int.
    by destruct (list_find _ _) as [[i t]|].
  - unfold main.delete_todo. rewrite find_bool, find_int.
    by destruct (list_find _ _) as [[i t]|].
Qed.

#[local] Set Warnings "-clear-no-such-hyp".

(** X17: the [create_todo] tool succeeds exactly when [title] is a string
    (the empty string included) and [description] is a string or [None];
    it then stores the two values as given, not completed.  Otherwise the
    constructor of [Todo] rejects the call with a [ValidationError], and
    the list and the counter stay as they were. *)
Theorem tool_create_accepts (L : PyLib) (title description : value)
    (now : datetime.t) (g : globals) :
  ((∃ r g', main.create_todo (H := L) title description now g = (Return r, g'))
   ↔ (∃ s, title = VStr s)
     ∧ (description = VNone ∨ ∃ s, description = VStr s))
  ∧ match main.create_todo (H := L) title description now g with
    | (Return r, g') =>
        r = Dict (main.todo_dict
                    (Todo.mk (main_next_id g) title description
                       (VBool false) now))
        ∧ g' = {| todos_db :=
                    todos_db g ++ [Todo.mk (main_next_id g) title description
                                     (VBool false) now];
                  routes_todo_next_id := routes_todo_next_id g;
                  main_next_id := main_next_id g + 1 |}
    | (Raise e, g') => (∃ msg, e = ValidationError msg) ∧ g' = g
    end.
Proof.
  unfold main.create_todo, Todo.validation_errors. split.
  - destruct title, description; simpl; naive_solver.
  - destruct title, description; simpl; naive_solver.
Qed.

(** ** Completing a task and the summary *)





(** ** Registering and dispatching *)

Section registering.
Import main.

Lemma tools_of_tool f self :
  MCPServer.tools (MCPServer.tool f self)
  = <[ pyfunction.__name__ f :=
         Tool.mk f (default "" (pyfunction.__doc__ f))
           (MCPServer._get_function_params f) ]> (MCPServer.tools self).
Proof. reflexivity. Qed.

Lemma tools_of_registrations (fs : list (pyfunction.t pyobj)) self0 name :
  MCPServer.tools (foldr MCPServer.tool self0 fs) !! name
  = match list_find (λ f, pyfunction.__name__ f = name) fs with
    | Some (_, f) =>
        Some (Tool.mk f (default "" (pyfunction.__doc__ f))
                (MCPServer._get_function_params f))
    | None => MCPServer.tools self0 !! name
    end.
Proof.
  induction fs as [|f fs IH]; [done|].
  cbn [foldr]. rewrite tools_of_tool, lookup_insert. simpl.
  case_decide; [done|].
  rewrite IH. by destruct (list_find _ fs) as [[i f']|].
Qed.

Lemma resources_of_registrations (fs : list (pyfunction.t pyobj)) self0 :
  MCPServer.resources (foldr MCPServer.tool self0 fs)
  = MCPServer.resources self0.
Proof. induction fs as [|f fs IH]; [done|]. by cbn. Qed.

End registering.

(** X19: on a server on which tools were registered in any number and
    order ([fs] lists them, the latest first), a tool request calls the
    function registered last under the requested name, whatever was
    registered under it before, and is answered 404 exactly when no
    function of that name was registered; the listing shows for that name
    the docstring (or the empty text) and the schema of that same
    function; registering tools adds no resource. *)
Theorem registration_then_dispatch (fs : list (pyfunction.t pyobj))
    (server_name server_description tool_name : string) (args : kwargs)
    (now : datetime.t) (g : globals) :
  let self :=
    foldr main.MCPServer.tool
      (main.MCPServer.__init__ server_name server_description) fs in
  main.MCPServer.call_tool self tool_name args now g
  = match list_find (λ f, pyfunction.__name__ f = tool_name) fs with
    | Some (_, f) =>
        match pyfunction.call f args now g with
        | (Return r, g') => (Return {| result := r |}, g')
        | (Raise e, g') =>
            (Raise {| status_code := 500; detail := exn_str e |}, g')
        end
    | None =>
        (Raise {| status_code := 404;
                  detail := "Tool " +:+ tool_name +:+ " not found" |}, g)
    end
  ∧ main.MCPServer.list_tools self !! tool_name
    = match list_find (λ f, pyfunction.__name__ f = tool_name) fs with
      | Some (_, f) =>
          Some (default "" (pyfunction.__doc__ f),
                main.MCPServer._get_function_params f)
      | None => None
      end
  ∧ main.MCPServer.list_resources self = ∅.
Proof.
  intros self. split_and!.
  - unfold main.MCPServer.call_tool. subst self.
    rewrite tools_of_registrations.
    by destruct (list_find _ fs) as [[i f]|].
  - unfold main.MCPServer.list_tools. subst self.
    rewrite lookup_fmap, tools_of_registrations.
    by destruct (list_find _ fs) as [[i f]|].
  - unfold main.MCPServer.list_resources. subst self.
    rewrite resources_of_registrations. apply fmap_empty.
Qed.

Lemma filter_none {A} (P : A → Prop) `{!∀ x, Decision (P x)} (l : list A) :
  Forall (λ x, ¬ P x) l → filter P l = [].
Proof.
  induction 1 as [|x l Hx _ IH]; [done|].
  by rewrite filter_cons, decide_False, IH.
Qed.

(** X20: a resource request is answered 404 exactly when the name is not
    registered as a resource.  A registered resource is called without
    arguments: when its function has a parameter without a default the
    answer is always 500, otherwise the body runs with every parameter at
    its default, its exception becomes a 500 with the exception's message
    and its value is wrapped as [{"result": value}]. *)
Theorem get_resource_contract (self : main.MCPServer.t) (name : string)
    (now : datetime.t) (g : globals) :
  (main.MCPServer.resources self !! name = None ↔
   ∃ d, fst (main.MCPServer.get_resource self name now g)
        = Raise {| status_code := 404; detail := d |})
  ∧ (∀ res, main.MCPServer.resources self !! name = Some res →
       ((∃ p, p ∈ pyfunction.signature (main.Resource.function res)
              ∧ Param.default p = None) →
        ∃ msg, main.MCPServer.get_resource self name now g
               = (Raise {| status_code := 500; detail := msg |}, g))
       ∧ (Forall (λ p, Param.default p ≠ None)
            (pyfunction.signature (main.Resource.function res)) →
          main.MCPServer.get_resource self name now g
          = match pyfunction.body (main.Resource.function res)
                    (pyfunction.bound (main.Resource.function res) [])
                    now g with
            | (Return r, g') => (Return {| result := r |}, g')
            | (Raise e, g') =>
                (Raise {| status_code := 500; detail := exn_str e |}, g')
            end)).
Proof.
  split.
  - split.
    + intros Hnone. unfold main.MCPServer.get_resource. rewrite Hnone.
      by eexists.
    + intros [d Hd]. revert Hd. unfold main.MCPServer.get_resource.
      destruct (main.MCPServer.resources self !! name) as [res|]; [|done].
      destruct (pyfunction.call _ _ _ _) as [[r|e] g']; simpl;
        intros Hd; discriminate Hd.
  - intros res Hres. unfold main.MCPServer.get_resource. rewrite Hres. split.
    + intros (p & Hin & Hdefault).
      destruct (call_mismatch (main.Resource.function res) [] now g)
        as [msg ->]; [|by eexists].
      right. by eapply missing_required.
    + intros Hdefaults. rewrite call_spreads; [done..|].
      unfold pyfunction.missing.
      rewrite filter_none; [done|].
      eapply Forall_impl; [exact Hdefaults|]. simpl. by intros p Hp [Hd _].
Qed.

(** X21: the server of [main.py] serves exactly five tools and one
    resource: a tool request is answered 404 exactly when its name is none
    of [create_todo], [list_todos], [get_todo], [update_todo],
    [delete_todo], and a resource request exactly when its name is not
    [todo_summary]; so a tool is not reachable as a resource nor the
    resource as a tool. *)
Theorem mcp_serves_exactly (L : PyLib) (name : string) (args : kwargs)
    (now : datetime.t) (g : globals) :
  ((∃ d, fst (main.MCPServer.call_tool (main.mcp (H := L)) name args now g)
         = Raise {| status_code := 404; detail := d |})
   ↔ name ∉ ["create_todo"; "list_todos"; "get_todo"; "update_todo";
             "delete_todo"])
  ∧ ((∃ d, fst (main.MCPServer.get_resource (main.mcp (H := L)) name now g)
           = Raise {| status_code := 404; detail := d |})
     ↔ name ≠ "todo_summary").
Proof.
  split.
  - split.
    + intros [d Hd]. apply call_tool_status_404 in Hd.
      rewrite !not_elem_of_cons. split_and!; try apply not_elem_of_nil;
        intros ->; revert Hd.
      * by rewrite mcp_create_todo.
      * by rewrite mcp_list_todos.
      * by rewrite mcp_get_todo.
      * by rewrite mcp_update_todo.
      * by rewrite mcp_delete_todo.
    + rewrite !not_elem_of_cons. intros (? & ? & ? & ? & ? & _).
      eexists. by rewrite call_tool_unregistered by (by apply mcp_tools_other).
  - destruct (get_resource_mcp_cases L name now g) as [[Hne ->]|[-> ->]];
      simpl; split; try done.
    + by eexists.
    + intros [d Hd]. discriminate Hd.
Qed.

(** ** Every reachable state *)

Section reachable.
Context (L : PyLib).

Lemma reachable_step req now g :
  (1 ≤ routes_todo_next_id g)%Z → (1 ≤ main_next_id g)%Z →
  Forall (λ t, (1 ≤ Todo.id t
                < Z.max (routes_todo_next_id g) (main_next_id g))%Z)
    (todos_db g) →
  (Z.of_nat (length (todos_db g))
   ≤ routes_todo_next_id g + main_next_id g - 2)%Z →
  let g' := snd (main.app (H := L) req now g) in
  (1 ≤ routes_todo_next_id g')%Z ∧ (1 ≤ main_next_id g')%Z
  ∧ Forall (λ t, (1 ≤ Todo.id t
                  < Z.max (routes_todo_next_id g') (main_next_id g'))%Z)
      (todos_db g')
  ∧ (Z.of_nat (length (todos_db g'))
     ≤ routes_todo_next_id g' + main_next_id g' - 2)%Z.
Proof.
  intros Hr Hm Hids Hlen g'. subst g'.
  destruct (app_effect L req now g)
    as [->|[(new & Hid & _ & ->)|[(new & Hid & _ & ->)
       |[(i & old & new & Hi & Hid & _ & ->)|(i & old & Hi & ->)]]]];
    cbn [todos_db routes_todo_next_id main_next_id].
  - done.
  - split_and!; [lia|lia| |rewrite length_app; simpl; lia].
    apply Forall_app. split; [|repeat constructor; lia].
    eapply Forall_impl; [exact Hids|]. simpl. intros; lia.
  - split_and!; [lia|lia| |rewrite length_app; simpl; lia].
    apply Forall_app. split; [|repeat constructor; lia].
    eapply Forall_impl; [exact Hids|]. simpl. intros; lia.
  - split_and!; [lia|lia| |by rewrite length_insert].
    apply Forall_insert; [done|]. rewrite Hid.
    by apply (Forall_lookup_1 _ _ _ _ Hids Hi).
  - split_and!; [lia|lia|by apply Forall_delete|].
    rewrite length_delete by done. lia.
Qed.

End reachable.

(** X22: in every state reached from the initial one by any sequence of
    requests, both counters are at least 1, every stored id is at least 1
    and below the larger counter, and the list holds no more records than
    ids were handed out by the two counters together. *)
Theorem reachable_invariant (L : PyLib)
    (reqs : list (main.request * datetime.t)) :
  let g := snd (main.run (H := L) reqs initial) in
  (1 ≤ routes_todo_next_id g)%Z ∧ (1 ≤ main_next_id g)%Z
  ∧ Forall (λ t, (1 ≤ Todo.id t
                  < Z.max (routes_todo_next_id g) (main_next_id g))%Z)
      (todos_db g)
  ∧ (Z.of_nat (length (todos_db g))
     ≤ routes_todo_next_id g + main_next_id g - 2)%Z.
Proof.
  assert (Hgen : ∀ g0,
    (1 ≤ routes_todo_next_id g0)%Z → (1 ≤ main_next_id g0)%Z →
    Forall (λ t, (1 ≤ Todo.id t
                  < Z.max (routes_todo_next_id g0) (main_next_id g0))%Z)
      (todos_db g0) →
    (Z.of_nat (length (todos_db g0))
     ≤ routes_todo_next_id g0 + main_next_id g0 - 2)%Z →
    let g := snd (main.run (H := L) reqs g0) in
    (1 ≤ routes_todo_next_id g)%Z ∧ (1 ≤ main_next_id g)%Z
    ∧ Forall (λ t, (1 ≤ Todo.id t
                    < Z.max (routes_todo_next_id g) (main_next_id g))%Z)
        (todos_db g)
    ∧ (Z.of_nat (length (todos_db g))
       ≤ routes_todo_next_id g + main_next_id g - 2)%Z).
  { induction reqs as [|[req now] rest IH]; intros g0 Hr Hm Hids Hlen.
    - done.
    - cbv zeta. rewrite run_cons.
      destruct (reachable_step L req now g0 Hr Hm Hids Hlen)
        as (Hr' & Hm' & Hids' & Hlen').
      by apply IH. }
  apply Hgen; simpl; [lia|lia|constructor|lia].
Qed.
